(** * stitch_images.py: the image-grid composer, embedded and verified

    The script lists a dataset directory, picks the reference folder [GT],
    the degraded folder [hazy] and the method folders, resolves one image
    file per (folder, identifier) pair, and lays the images out in grids of
    at most three rows that are saved as [grid_batch_<n>.png].

    Conventions of the embedding.
    - A Python [str] is the list of its code points ([N]); [lit] turns a
      literal into one.  Comparison, slicing and concatenation are those of
      lists.
    - The file system and the image decoder are read through a record of
      functions ([FileSystem]).  The calls are those of a POSIX system.
      Errors of the environment (a root that cannot be listed, an output
      directory that cannot be written) are raised by the operating system,
      not by the script, and are not part of the model.
    - What the script prints, creates, saves and shows is collected in a
      [World]; code that can raise a Python exception runs in the monad
      [M], which keeps the world reached when the exception is raised.
    - Styling arguments of the plotting calls (font, colour, dpi, padding)
      are left out; the position and the string of every text are kept.
      The current figure of [pyplot] is the figure of the batch at hand:
      [plt.savefig] and [plt.show] act on it, and [plt.close(fig)], which
      only releases it, leaves no trace in the model. *)

From Stdlib Require Import Strings.String Strings.Ascii NArith QArith DecimalString ZifyNat.
From Stdlib Require DecimalNat DecimalFacts.
From stdpp Require Import base list sorting.

Local Open Scope N_scope.
Local Open Scope nat_scope.

(** ** Strings *)

Abbreviation str := (list N).

Definition lit (s : string) : str := N_of_ascii <$> list_ascii_of_string s.

(** [s == t] on strings. *)
Definition str_eqb (s t : str) : bool := bool_decide (s = t).

(** [s.startswith(p)] and [s.endswith(p)]. *)
Definition startswith (s p : str) : bool := str_eqb (take (length p) s) p.

Definition endswith (s p : str) : bool :=
  (length p <=? length s) && str_eqb (drop (length s - length p) s) p.

(** [s <= t]: the order of Python strings, code point by code point, a
    proper prefix coming first. *)
Fixpoint str_leb (s t : str) : bool :=
  match s, t with
  | [], _ => true
  | _ :: _, [] => false
  | a :: s', b :: t' =>
      if (a <? b)%N then true
      else if (a =? b)%N then str_leb s' t'
      else false
  end.

Definition str_le (s t : str) : Prop := str_leb s t = true.

#[global] Instance str_le_dec : RelDecision str_le.
Proof. intros s t. unfold str_le. apply _. Defined.

(** [sorted(l)] on a list of strings: a stable merge sort. *)
Definition sorted (l : list str) : list str := merge_sort str_le l.

(** [str(n)] for a natural number. *)
Definition str_of_nat (n : nat) : str := lit (NilZero.string_of_uint (Nat.to_uint n)).

(** [l[a:b]] for [0 <= a <= b]. *)
Definition slice {A} (l : list A) (a b : nat) : list A := take (b - a) (drop a l).

(** [range(start, stop, step)] for a positive [step]; at most [fuel]
    elements are produced. *)
Fixpoint range_from (fuel start stop step : nat) : list nat :=
  match fuel with
  | O => []
  | S fuel' =>
      if start <? stop then start :: range_from fuel' (start + step) stop step
      else []
  end.

Definition range (start stop step : nat) : list nat :=
  range_from stop start stop step.

(** [enumerate(l, start)]. *)
Fixpoint enumerate {A} (start : nat) (l : list A) : list (nat * A) :=
  match l with
  | [] => []
  | x :: l' => (start, x) :: enumerate (S start) l'
  end.

(** ** Paths: [os.path.join] with two arguments (posixpath) *)

Definition sep : str := lit "/".

Definition path_join (a b : str) : str :=
  if startswith b sep then b
  else if str_eqb a [] || endswith a sep then a ++ b
  else a ++ sep ++ b.

(** ** The environment *)

(** A decoded image: rows of pixels, three channels each. *)
Abbreviation Pixel := (N * N * N)%type.
Abbreviation Image := (list (list Pixel)).

Record FileSystem := {
  listdir : str → list str;        (* os.listdir *)
  isdir : str → bool;              (* os.path.isdir *)
  path_exists : str → bool;        (* os.path.exists *)
  imread : str → option Image      (* cv2.imread: None when it cannot decode *)
}.

(** [cv2.cvtColor(img, cv2.COLOR_BGR2RGB)]: the first and the third
    channel of every pixel change places. *)
Definition cvtColor_BGR2RGB (img : Image) : Image :=
  map (map (λ '(c0, c1, c2), (c2, c1, c0))) img.

(** ** Folder discovery *)

Section Discovery.
Variable fs : FileSystem.

Definition find_custom_folders (dataset_dir : str) : list str :=
  let custom_folders :=
    foldl (λ custom_folders item,
             let item_path := path_join dataset_dir item in
             if isdir fs item_path then
               if endswith item (lit "_hazy") || startswith item (lit "results_") then
                 if negb (str_eqb item (lit "hazy")) then custom_folders ++ [item]
                 else custom_folders
               else custom_folders
             else custom_folders)
          [] (listdir fs dataset_dir) in
  sorted custom_folders.

Definition find_gt_hazy_folders (dataset_dir : str) : option str * option str :=
  foldl (λ '(gt_folder, hazy_folder) item,
           let item_path := path_join dataset_dir item in
           if isdir fs item_path then
             if str_eqb item (lit "GT") then (Some item, hazy_folder)
             else if str_eqb item (lit "hazy") then (gt_folder, Some item)
             else (gt_folder, hazy_folder)
           else (gt_folder, hazy_folder))
        (None, None) (listdir fs dataset_dir).

Definition load_image (image_path : str) : option Image :=
  match imread fs image_path with
  | Some img => Some (cvtColor_BGR2RGB img)
  | None => None
  end.
End Discovery.

(** ** The plotting canvas *)

Record Text := { text_x : Q; text_y : Q; text_s : str }.

(** One subplot: what has been drawn on it, and whether its ticks and
    its frame are still on. *)
Record Axes := {
  ax_texts : list Text;
  ax_images : list Image;
  ax_xticks : bool;
  ax_yticks : bool;
  ax_axis_on : bool
}.

Definition new_axes : Axes :=
  {| ax_texts := []; ax_images := []; ax_xticks := true; ax_yticks := true;
     ax_axis_on := true |}.

Definition ax_text (x y : Q) (s : str) (ax : Axes) : Axes :=
  {| ax_texts := ax_texts ax ++ [{| text_x := x; text_y := y; text_s := s |}];
     ax_images := ax_images ax; ax_xticks := ax_xticks ax;
     ax_yticks := ax_yticks ax; ax_axis_on := ax_axis_on ax |}.

Definition ax_imshow (img : Image) (ax : Axes) : Axes :=
  {| ax_texts := ax_texts ax; ax_images := ax_images ax ++ [img];
     ax_xticks := ax_xticks ax; ax_yticks := ax_yticks ax;
     ax_axis_on := ax_axis_on ax |}.

(** [ax.set_xticks([]); ax.set_yticks([]); ax.axis('off')]. *)
Definition ax_hide_axis (ax : Axes) : Axes :=
  {| ax_texts := ax_texts ax; ax_images := ax_images ax;
     ax_xticks := false; ax_yticks := false; ax_axis_on := false |}.

(** What [plt.subplots] returns as [axes] (with the default
    [squeeze=True]): one subplot, a vector, or a matrix of subplots. *)
Inductive AxesArr :=
  | OneAxes (a : Axes)
  | Axes1D (v : list Axes)
  | Axes2D (g : list (list Axes)).

Record Figure := { fig_nrows : nat; fig_ncols : nat; fig_axes : AxesArr }.

(** The subplots of a figure as rows of cells, whatever the shape of
    [axes]. *)
Definition fig_grid (f : Figure) : list (list Axes) :=
  match fig_axes f with
  | OneAxes a => [[a]]
  | Axes1D v => if fig_nrows f =? 1 then [v] else (λ a, [a]) <$> v
  | Axes2D g => g
  end.

(** ** Exceptions, the world and the monad *)

Inductive exn := ValueError | TypeError | IndexError | AttributeError.

Inductive result (A : Type) :=
  | Ok (a : A)
  | Raise (e : exn).
Arguments Ok {A} a.
Arguments Raise {A} e.

Record World := {
  stdout : list str;              (* the lines printed *)
  made_dirs : list str;           (* directories os.makedirs was asked for *)
  saved : list (str * Figure);    (* files written by plt.savefig *)
  shown : list Figure             (* figures displayed by plt.show *)
}.

Definition empty_world : World :=
  {| stdout := []; made_dirs := []; saved := []; shown := [] |}.

Definition M (A : Type) : Type := World → result A * World.

Definition ret {A} (a : A) : M A := λ w, (Ok a, w).

Definition bind {A B} (m : M A) (k : A → M B) : M B :=
  λ w, match m w with
       | (Ok a, w') => k a w'
       | (Raise e, w') => (Raise e, w')
       end.

Definition raise {A} (e : exn) : M A := λ w, (Raise e, w).

Definition lift {A} (r : result A) : M A := λ w, (r, w).

Notation "x <- m ;; k" := (bind m (λ x, k))
  (at level 100, m at next level, right associativity).
Notation "m ;;; k" := (bind m (λ _, k))
  (at level 100, right associativity).

(** [for x in l: s = body(s, x)] for a local variable [s]. *)
Fixpoint foldM {S A} (body : S → A → M S) (s : S) (l : list A) : M S :=
  match l with
  | [] => ret s
  | x :: l' => s' <- body s x ;; foldM body s' l'
  end.

(** [for x in l: body(x)]. *)
Fixpoint for_each {A} (l : list A) (body : A → M unit) : M unit :=
  match l with
  | [] => ret tt
  | x :: l' => body x ;;; for_each l' body
  end.

(** The four ways in which the script changes the world. *)
Definition put_line (line : str) (w : World) : World :=
  {| stdout := stdout w ++ [line]; made_dirs := made_dirs w;
     saved := saved w; shown := shown w |}.

Definition put_dir (d : str) (w : World) : World :=
  {| stdout := stdout w;
     made_dirs := if bool_decide (d ∈ made_dirs w) then made_dirs w
                  else made_dirs w ++ [d];
     saved := saved w; shown := shown w |}.

Definition put_saved (path : str) (f : Figure) (w : World) : World :=
  {| stdout := stdout w; made_dirs := made_dirs w;
     saved := saved w ++ [(path, f)]; shown := shown w |}.

Definition put_shown (f : Figure) (w : World) : World :=
  {| stdout := stdout w; made_dirs := made_dirs w;
     saved := saved w; shown := shown w ++ [f] |}.

Definition print (line : str) : M unit := λ w, (Ok tt, put_line line w).

(** [os.makedirs(d, exist_ok=True)]. *)
Definition makedirs (d : str) : M unit := λ w, (Ok tt, put_dir d w).

(** [plt.savefig(path)] on the current figure [f]. *)
Definition savefig (path : str) (f : Figure) : M unit :=
  λ w, (Ok tt, put_saved path f w).

(** [plt.show()] with the current figure [f] open. *)
Definition show (f : Figure) : M unit := λ w, (Ok tt, put_shown f w).

(** [chr(n)]: a code point, at most 0x10FFFF. *)
Definition chr (n : N) : result str :=
  if (n <=? 1114111)%N then Ok [n] else Raise ValueError.

(** [plt.subplots(nrows, ncols)]: the fresh subplots. *)
Definition subplots (nrows ncols : nat) : result AxesArr :=
  if (nrows =? 0) || (ncols =? 0) then Raise ValueError
  else if (nrows =? 1) && (ncols =? 1) then Ok (OneAxes new_axes)
  else if (nrows =? 1) || (ncols =? 1) then
    Ok (Axes1D (replicate (nrows * ncols) new_axes))
  else Ok (Axes2D (replicate nrows (replicate ncols new_axes))).

(** [ax = axes[col]] or [ax = axes[row, col]], followed by calls on [ax]
    that change the subplot in place ([f]). *)
Inductive index := At1 (col : nat) | At2 (row col : nat).

Definition ax_update (i : index) (f : Axes → Axes) (axes : AxesArr)
  : result AxesArr :=
  match i, axes with
  | _, OneAxes _ => Raise TypeError
  | At1 col, Axes1D v =>
      if col <? length v then Ok (Axes1D (alter f col v)) else Raise IndexError
  | At1 col, Axes2D g =>
      if col <? length g then Raise AttributeError else Raise IndexError
  | At2 _ _, Axes1D _ => Raise IndexError
  | At2 row col, Axes2D g =>
      match g !! row with
      | Some r =>
          if col <? length r then Ok (Axes2D (alter (alter f col) row g))
          else Raise IndexError
      | None => Raise IndexError
      end
  end.

(** ** Image lookup and the grid *)

Definition placeholder : str := [10007%N] ++ lit " Image not found".

Section Grid.
Variable fs : FileSystem.

Definition extensions : list str := [lit ".png"; lit ".jpg"; lit ".jpeg"].

Fixpoint probe (folder_path filename suffix : str) (exts : list str)
  : M (option str) :=
  match exts with
  | [] => ret None
  | ext :: exts' =>
      let full_path := path_join folder_path (filename ++ suffix ++ ext) in
      if path_exists fs full_path then
        print (lit "Found image file: " ++ full_path) ;;;
        ret (Some full_path)
      else
        print (lit "Image file not found: " ++ full_path) ;;;
        probe folder_path filename suffix exts'
  end.

Definition find_image_file (folder_path filename folder_name : str)
  : M (option str) :=
  let suffix := if str_eqb folder_name (lit "GT") then lit "_GT"
                else lit "_hazy" in
  probe folder_path filename suffix extensions.

(** The body of [for i, folder in enumerate(custom_folders, 1)]. *)
Definition add_label (column_labels : list str) (entry : nat * str)
  : M (list str) :=
  c <- lift (chr (64 + N.of_nat (fst entry))) ;;
  ret (column_labels ++ [lit "Method " ++ c]).

(** What is drawn in one cell: [if image_path:] holds for a path that is
    neither [None] nor the empty string. *)
Definition draw_cell (image_path : option str) (ax : Axes) : Axes :=
  let ax :=
    match image_path with
    | Some (c :: p) =>
        match load_image fs (c :: p) with
        | Some img => ax_imshow img ax
        | None => ax_text (1 # 2) (1 # 2) placeholder ax
        end
    | _ => ax_text (1 # 2) (1 # 2) placeholder ax
    end in
  ax_hide_axis ax.

Definition truthy (s : option str) : bool :=
  match s with
  | Some (_ :: _) => true
  | _ => false
  end.

Section Batches.
Variables (dataset_dir : str) (filenames : list str).
Variables (folders column_labels : list str) (save_dir : option str).

Definition at_cell (num_rows row col : nat) : index :=
  if num_rows =? 1 then At1 col else At2 row col.

(** The body of [for batch_idx in range(0, len(filenames), 3)]. *)
Definition render_batch (batch_idx : nat) : M unit :=
  let batch_filenames := slice filenames batch_idx (batch_idx + 3) in
  let num_cols := length folders in
  let num_rows := length batch_filenames in
  axes <- lift (subplots num_rows num_cols) ;;
  axes <- foldM (λ axes '(col, label),
                   lift (ax_update (at_cell num_rows 0 col)
                                   (ax_text (1 # 2) (5 # 4) label) axes))
                axes (enumerate 0 column_labels) ;;
  axes <- foldM (λ axes '(row, filename),
            foldM (λ axes '(col, folder),
                     let folder_path := path_join dataset_dir folder in
                     image_path <- find_image_file folder_path filename folder ;;
                     lift (ax_update (at_cell num_rows row col)
                                     (draw_cell image_path) axes))
                  axes (enumerate 0 folders))
          axes (enumerate 0 batch_filenames) ;;
  let fig := {| fig_nrows := num_rows; fig_ncols := num_cols;
                fig_axes := axes |} in
  match save_dir with
  | Some (c :: d) =>
      makedirs (c :: d) ;;;
      let batch_num := batch_idx / 3 + 1 in
      let save_path :=
        path_join (c :: d) (lit "grid_batch_" ++ str_of_nat batch_num ++ lit ".png") in
      savefig save_path fig ;;;
      print (lit "Saved: " ++ save_path)
  | _ => show fig
  end.
End Batches.

Definition create_grid (dataset_dir : str) (filenames : list str)
    (custom_folders : option (list str)) (save_dir : option str) : M unit :=
  let '(gt_folder, hazy_folder) := find_gt_hazy_folders fs dataset_dir in
  match gt_folder, hazy_folder with
  | Some (g :: t), Some (h :: y) =>
      let gt_folder := g :: t in
      let hazy_folder := h :: y in
      let custom_folders :=
        match custom_folders with
        | None => find_custom_folders fs dataset_dir
        | Some l => l
        end in
      let folders := [hazy_folder] ++ custom_folders ++ [gt_folder] in
      column_labels <- foldM add_label [lit "Hazy Input"]
                             (enumerate 1 custom_folders) ;;
      let column_labels := column_labels ++ [lit "Reference (GT)"] in
      for_each (range 0 (length filenames) 3)
               (render_batch dataset_dir filenames folders column_labels save_dir)
  | _, _ => print (lit "Error: Could not find GT or hazy folders")
  end.
End Grid.

(** ** Closed forms

    The definitions below describe, without loops or state, what the
    functions above compute; the theorems relate the two. *)

Definition put_lines (lines : list str) (w : World) : World :=
  foldl (λ w line, put_line line w) w lines.

(** The figures a run has produced, saved ones first. *)
Definition rendered (w : World) : list Figure := (snd <$> saved w) ++ shown w.

(** [axes] for a grid with at least two columns. *)
Definition pack (g : list (list Axes)) : AxesArr :=
  match g with
  | [r] => Axes1D r
  | _ => Axes2D g
  end.

(** What a subplot shows, in short: how many images, and the strings of
    its texts; and the same for all the subplots of a figure. *)
Definition cell_summary (ax : Axes) : nat * list str :=
  (length (ax_images ax), text_s <$> ax_texts ax).

Definition figure_summary (f : Figure) : list (list (nat * list str)) :=
  map (map cell_summary) (fig_grid f).

(** A grid of [nrows] rows of [ncols] subplots each. *)
Definition well_shaped (nrows ncols : nat) (g : list (list Axes)) : Prop :=
  length g = nrows ∧ Forall (λ r, length r = ncols) g.

(** The label of the method in position [i], counted from 0. *)
Definition method_label (i : nat) : str := lit "Method " ++ [(65 + N.of_nat i)%N].

Definition labels_for (methods : list str) : list str :=
  [lit "Hazy Input"] ++ imap (λ i _, method_label i) methods ++ [lit "Reference (GT)"].

Definition batch_path (save_dir : str) (n : nat) : str :=
  path_join save_dir (lit "grid_batch_" ++ str_of_nat n ++ lit ".png").

(** The consecutive slices of three identifiers. *)
Definition batches (filenames : list str) : list (list str) :=
  (λ batch_idx, slice filenames batch_idx (batch_idx + 3))
    <$> range 0 (length filenames) 3.

Section Descriptions.
Variable fs : FileSystem.

Definition is_custom (dataset_dir item : str) : bool :=
  isdir fs (path_join dataset_dir item)
  && (endswith item (lit "_hazy") || startswith item (lit "results_"))
  && negb (str_eqb item (lit "hazy")).

Definition has_subdir (dataset_dir name : str) : bool :=
  bool_decide (name ∈ listdir fs dataset_dir)
  && isdir fs (path_join dataset_dir name).

(** The method folders [create_grid] works with. *)
Definition methods_of (dataset_dir : str) (custom_folders : option (list str))
  : list str :=
  match custom_folders with
  | None => find_custom_folders fs dataset_dir
  | Some l => l
  end.

Definition name_suffix (folder_name : str) : str :=
  if str_eqb folder_name (lit "GT") then lit "_GT" else lit "_hazy".

Definition candidates (folder_path filename folder_name : str) : list str :=
  (λ ext, path_join folder_path (filename ++ name_suffix folder_name ++ ext))
    <$> extensions.

Definition first_existing (paths : list str) : option (nat * str) :=
  list_find (λ p, path_exists fs p = true) paths.

Definition not_found_line (p : str) : str := lit "Image file not found: " ++ p.
Definition found_line (p : str) : str := lit "Found image file: " ++ p.

Definition probe_lines (paths : list str) : list str :=
  match first_existing paths with
  | Some (i, p) => (not_found_line <$> take i paths) ++ [found_line p]
  | None => not_found_line <$> paths
  end.

Definition header (label : str) : Axes → Axes := ax_text (1 # 2) (5 # 4) label.

Definition cell_path (dataset_dir filename folder : str) : option str :=
  snd <$> first_existing (candidates (path_join dataset_dir folder) filename folder).

Definition cell (dataset_dir filename folder : str) : Axes → Axes :=
  draw_cell fs (cell_path dataset_dir filename folder).

Definition cell_lines (dataset_dir filename folder : str) : list str :=
  probe_lines (candidates (path_join dataset_dir folder) filename folder).

Section Canvas.
Variables (dataset_dir : str) (folders labels : list str).

Definition canvas_rows (batch : list str) : list (list Axes) :=
  let blank := replicate (length folders) new_axes in
  let start := zip_with header labels blank
               :: replicate (length batch - 1) blank in
  zip_with (λ filename r, zip_with (cell dataset_dir filename) folders r)
           batch start.

Definition canvas (batch : list str) : Figure :=
  {| fig_nrows := length batch; fig_ncols := length folders;
     fig_axes := pack (canvas_rows batch) |}.

Definition batch_lines (batch : list str) : list str :=
  filename ← batch; folder ← folders; cell_lines dataset_dir filename folder.

Definition batch_world (filenames : list str) (save_dir : option str)
    (batch_idx : nat) (w : World) : World :=
  let batch := slice filenames batch_idx (batch_idx + 3) in
  let w := put_lines (batch_lines batch) w in
  match save_dir with
  | Some (c :: d) =>
      let save_path := batch_path (c :: d) (batch_idx / 3 + 1) in
      put_line (lit "Saved: " ++ save_path)
               (put_saved save_path (canvas batch) (put_dir (c :: d) w))
  | _ => put_shown (canvas batch) w
  end.

(** The world after the batches that start at [idxs]. *)
Definition batches_world (filenames : list str) (save_dir : option str)
    (idxs : list nat) (w : World) : World :=
  foldl (λ w batch_idx, batch_world filenames save_dir batch_idx w) w idxs.
End Canvas.
End Descriptions.

(** ** Concrete data used by the examples and witnesses *)

Module Demo.
Definition img_a : Image := [[(1, 2, 3)%N; (4, 5, 6)%N]].
Definition img_b : Image := [[(7, 8, 9)%N]].

(** A dataset [ds] with [GT], [hazy], two result folders, a stray file
    and, for identifier 01, images under three different extensions. *)
Definition fs : FileSystem :=
  {| listdir := λ d,
       if str_eqb d (lit "ds") then
         [lit "results_2"; lit "GT"; lit "notes.txt"; lit "results_1"; lit "hazy"]
       else [];
     isdir := λ p,
       bool_decide (p ∈ [lit "ds/GT"; lit "ds/hazy"; lit "ds/results_1";
                         lit "ds/results_2"]);
     path_exists := λ p,
       bool_decide (p ∈ [lit "ds/GT/01_GT.png"; lit "ds/hazy/01_hazy.jpg";
                         lit "ds/hazy/01_hazy.jpeg";
                         lit "ds/results_1/01_hazy.jpeg";
                         lit "ds/results_2/01_hazy.png";
                         lit "ds/hazy/02_hazy.png"]);
     imread := λ p,
       if bool_decide (p ∈ [lit "ds/GT/01_GT.png"; lit "ds/hazy/01_hazy.jpg";
                            lit "ds/results_1/01_hazy.jpeg"])
       then Some img_a
       else if bool_decide (p = lit "ds/results_2/01_hazy.png") then Some img_b
       else None |}.

(** The same dataset, listed in another order. *)
Definition fs_shuffled : FileSystem :=
  {| listdir := λ d,
       if str_eqb d (lit "ds") then
         [lit "hazy"; lit "results_1"; lit "results_2"; lit "notes.txt"; lit "GT"]
       else [];
     isdir := isdir fs; path_exists := path_exists fs; imread := imread fs |}.

(** A dataset without the reference folder. *)
Definition fs_no_gt : FileSystem :=
  {| listdir := λ d, if str_eqb d (lit "ds") then [lit "hazy"; lit "results_1"] else [];
     isdir := isdir fs; path_exists := path_exists fs; imread := imread fs |}.

Definition ids : list str := [lit "01"; lit "02"; lit "03"; lit "04"].

(** A dataset with [GT], [hazy] and [results_1] in which every image of
    the identifiers 01, 02 and 04 is present and decodes, except those
    listed in [absent]. *)
Definition fs_complete (absent : list str) : FileSystem :=
  let files :=
    folder ← [(lit "GT", lit "_GT"); (lit "hazy", lit "_hazy");
              (lit "results_1", lit "_hazy")];
    id ← [lit "01"; lit "02"; lit "04"];
    [lit "ds/" ++ folder.1 ++ lit "/" ++ id ++ folder.2 ++ lit ".png"] in
  {| listdir := λ d,
       if str_eqb d (lit "ds") then [lit "GT"; lit "hazy"; lit "results_1"] else [];
     isdir := λ p,
       bool_decide (p ∈ [lit "ds/GT"; lit "ds/hazy"; lit "ds/results_1"]);
     path_exists := λ p, bool_decide (p ∈ files) && negb (bool_decide (p ∈ absent));
     imread := λ p,
       if bool_decide (p ∈ files) && negb (bool_decide (p ∈ absent))
       then Some img_a else None |}.
End Demo.

(** ** The script's entry point

    The block under [if __name__ == "__main__":].  Its constants are
    those of the source.  [str(x)] inside an f-string is the string itself
    for a string and ['None'] for [None]; for the list of method folders
    it is Python's [repr] of the list, which quotes and escapes every
    name by Unicode tables of its own and is taken here as a parameter
    ([repr_list]): it only ends up in one printed line. *)

Definition main_dataset_dir : str := lit "Dense_Haze_NTIRE19".

Definition main_save_dir : option str := Some (lit "output_grids").

Definition main_filenames : list str :=
  [lit "01"; lit "02"; lit "04"; lit "06"; lit "07"; lit "10"; lit "11";
   lit "12"; lit "13"; lit "20"; lit "22"; lit "26"; lit "28"; lit "30";
   lit "32"; lit "34"; lit "35"; lit "36"; lit "37"; lit "38"; lit "39";
   lit "40"; lit "41"; lit "42"; lit "45"; lit "47"; lit "49"].

Definition str_of_option (o : option str) : str :=
  match o with
  | Some s => s
  | None => lit "None"
  end.

Section Main.
Variable fs : FileSystem.
Variable repr_list : list str → str.

Definition main : M unit :=
  let dataset_dir := main_dataset_dir in
  let save_dir := main_save_dir in
  let filenames := main_filenames in
  if path_exists fs dataset_dir then
    print (lit "Dataset directory: " ++ dataset_dir) ;;;
    let '(gt_folder, hazy_folder) := find_gt_hazy_folders fs dataset_dir in
    let custom_folders := find_custom_folders fs dataset_dir in
    print (lit "GT folder: " ++ str_of_option gt_folder) ;;;
    print (lit "Hazy folder: " ++ str_of_option hazy_folder) ;;;
    print (lit "Found custom folders: " ++ repr_list custom_folders) ;;;
    match filenames with
    | [] => ret tt
    | _ :: _ => create_grid fs dataset_dir filenames None save_dir
    end
  else
    print (lit "Dataset directory not found: " ++ dataset_dir).

(** The four lines [main] prints before it composes the grids. *)
Definition main_report : list str :=
  [lit "Dataset directory: Dense_Haze_NTIRE19";
   lit "GT folder: " ++ str_of_option (find_gt_hazy_folders fs main_dataset_dir).1;
   lit "Hazy folder: " ++ str_of_option (find_gt_hazy_folders fs main_dataset_dir).2;
   lit "Found custom folders: " ++ repr_list (find_custom_folders fs main_dataset_dir)].
End Main.

(** [os.makedirs(d, exist_ok=True)] on the list of directories asked
    for so far. *)
Definition dirs_put (d : str) (dirs : list str) : list str :=
  if bool_decide (d ∈ dirs) then dirs else dirs ++ [d].

(** The text drawn at the centre of a cell without image, and the text
    drawn above a column. *)
Definition placeholder_text : Text :=
  {| text_x := 1 # 2; text_y := 1 # 2; text_s := placeholder |}.

Definition header_text (label : str) : Text :=
  {| text_x := 1 # 2; text_y := 5 # 4; text_s := label |}.

(** More concrete data for witnesses. *)
Module DemoScript.
(** The dataset of the script with the two base folders and one method
    folder; no image file is present. *)
Definition fs : FileSystem :=
  {| listdir := λ d,
       if str_eqb d (lit "Dense_Haze_NTIRE19")
       then [lit "hazy"; lit "GT"; lit "results_dcp"] else [];
     isdir := λ p,
       bool_decide (p ∈ [lit "Dense_Haze_NTIRE19/GT"; lit "Dense_Haze_NTIRE19/hazy";
                         lit "Dense_Haze_NTIRE19/results_dcp"]);
     path_exists := λ p, str_eqb p (lit "Dense_Haze_NTIRE19");
     imread := λ _, None |}.


(** A stand-in for Python's [repr] of a list of strings, exact for
    names without quotes, backslashes or unprintable characters. *)
Definition repr_list (l : list str) : str :=
  lit "[" ++ foldr (λ x acc, lit "'" ++ x ++ lit "'"
                             ++ (if acc is [] then [] else lit ", " ++ acc))
                   [] l
  ++ lit "]".

(** A file system in which an image exists at an absolute path. *)
Definition fs_absolute : FileSystem :=
  {| listdir := listdir Demo.fs; isdir := isdir Demo.fs;
     path_exists := λ p, str_eqb p (lit "/tmp/x_hazy.jpg");
     imread := λ _, None |}.
End DemoScript.

(** * Properties *)

(** ** Strings and their order *)

Lemma str_eqb_eq (s t : str) : str_eqb s t = true ↔ s = t.
Proof. unfold str_eqb. apply bool_decide_eq_true. Qed.

Lemma startswith_prefix (s p : str) : startswith s p = true ↔ p `prefix_of` s.
Proof.
  unfold startswith. rewrite str_eqb_eq. split.
  - intros H. exists (drop (length p) s). rewrite <- H at 1. by rewrite take_drop.
  - intros [k ->]. by rewrite take_app_length.
Qed.


Lemma str_leb_refl s : str_leb s s = true.
Proof.
  induction s as [|a s IH]; simpl; [done|].
  by rewrite N.ltb_irrefl, N.eqb_refl.
Qed.

Lemma str_leb_total s t : str_leb s t = true ∨ str_leb t s = true.
Proof.
  revert t; induction s as [|a s IH]; intros [|b t]; simpl; auto.
  destruct (N.ltb_spec a b), (N.ltb_spec b a), (N.eqb_spec a b), (N.eqb_spec b a);
    auto; lia.
Qed.

Lemma str_leb_trans s t u :
  str_leb s t = true → str_leb t u = true → str_leb s u = true.
Proof.
  revert t u; induction s as [|a s IH]; intros [|b t] [|c u]; simpl; auto; try done.
  destruct (N.ltb_spec a b), (N.ltb_spec b c), (N.ltb_spec a c),
    (N.eqb_spec a b), (N.eqb_spec b c), (N.eqb_spec a c); try done; try lia; eauto.
Qed.

Lemma str_leb_antisym s t : str_leb s t = true → str_leb t s = true → s = t.
Proof.
  revert t; induction s as [|a s IH]; intros [|b t]; simpl; auto; try done.
  destruct (N.ltb_spec a b), (N.ltb_spec b a), (N.eqb_spec a b), (N.eqb_spec b a);
    try done; try lia.
  intros. f_equal; auto.
Qed.

#[global] Instance str_le_total : Total str_le.
Proof. intros s t. apply str_leb_total. Qed.

#[global] Instance str_le_trans : Transitive str_le.
Proof. intros s t u. apply str_leb_trans. Qed.

#[global] Instance str_le_antisym : AntiSymm (=) str_le.
Proof. intros s t. apply str_leb_antisym. Qed.

(** [str_le] is the lexicographic order: [s <= t] when [s] is a prefix of
    [t], or when they first differ at a smaller code point of [s]. *)
Lemma str_le_lexicographic (s t : str) :
  str_le s t ↔
  s `prefix_of` t ∨
  ∃ common a b s' t',
    s = common ++ a :: s' ∧ t = common ++ b :: t' ∧ (a < b)%N.
Proof.
  unfold str_le. revert t. induction s as [|a s IH]; intros t; simpl.
  - split; [intros _; left; apply prefix_nil|done].
  - destruct t as [|b t].
    + split; [done|]. intros [[k Hk]|(c & x & y & s' & t' & _ & Ht & _)]; [done|].
      by destruct c.
    + destruct (N.ltb_spec a b) as [Hlt|Hge].
      * split; [|done]. intros _. right. by exists [], a, b, s, t.
      * destruct (N.eqb_spec a b) as [->|Hne].
        -- rewrite IH. split.
           ++ intros [Hp|(c & x & y & s' & t' & -> & -> & Hxy)].
              ** left. by apply prefix_cons.
              ** right. by exists (b :: c), x, y, s', t'.
           ++ intros [Hp|(c & x & y & s' & t' & Hs & Ht & Hxy)].
              ** left. by apply prefix_cons_inv_2 in Hp.
              ** destruct c as [|z c]; simplify_eq/=; [lia|].
                 right. by exists c, x, y, s', t'.
        -- split; [done|].
           intros [Hp|(c & x & y & s' & t' & Hs & Ht & Hxy)].
           ++ by apply prefix_cons_inv_1 in Hp.
           ++ destruct c as [|z c]; simplify_eq/=; lia.
Qed.

Lemma sorted_Sorted l : StronglySorted str_le (sorted l).
Proof. apply StronglySorted_merge_sort; apply _. Qed.

Lemma sorted_Permutation l : sorted l ≡ₚ l.
Proof. apply merge_sort_Permutation. Qed.

Lemma sorted_perm_eq l1 l2 : l1 ≡ₚ l2 → sorted l1 = sorted l2.
Proof.
  intros H. apply (StronglySorted_unique str_le); try apply sorted_Sorted.
  by rewrite !sorted_Permutation.
Qed.

(** ** Folder discovery *)

Lemma str_eqb_neq (s t : str) : s ≠ t → str_eqb s t = false.
Proof. intros H. apply not_true_is_false. by rewrite str_eqb_eq. Qed.

Lemma bool_decide_elem_cons (x y : str) (l : list str) :
  bool_decide (x ∈ y :: l) = str_eqb x y || bool_decide (x ∈ l).
Proof.
  unfold str_eqb. apply eq_true_iff_eq.
  rewrite orb_true_iff, !bool_decide_eq_true, elem_of_cons. done.
Qed.

Section DiscoveryFacts.
Variable fs : FileSystem.

Lemma find_custom_folders_filter dataset_dir :
  find_custom_folders fs dataset_dir
  = sorted (filter (λ item, is_custom fs dataset_dir item = true)
                   (listdir fs dataset_dir)).
Proof.
  unfold find_custom_folders. f_equal.
  set (f := λ (custom_folders : list str) (item : str), _).
  enough (∀ l acc, foldl f acc l
                   = acc ++ filter (λ item, is_custom fs dataset_dir item = true) l)
    as H by apply (H _ []).
  induction l as [|item l IH]; intros acc.
  - by rewrite filter_nil, app_nil_r.
  - cbn [foldl]. rewrite IH, filter_cons.
    assert (f acc item = if is_custom fs dataset_dir item then acc ++ [item] else acc)
      as ->.
    { unfold f, is_custom. destruct (isdir fs _); [|done].
      destruct (endswith _ _ || startswith _ _); [|done]. by destruct (negb _). }
    destruct (is_custom fs dataset_dir item).
    + rewrite decide_True by done. by rewrite <- app_assoc.
    + by rewrite decide_False by done.
Qed.



Lemma find_gt_hazy_folders_fold dataset_dir l gt hazy :
  foldl (λ '(gt_folder, hazy_folder) item,
           let item_path := path_join dataset_dir item in
           if isdir fs item_path then
             if str_eqb item (lit "GT") then (Some item, hazy_folder)
             else if str_eqb item (lit "hazy") then (gt_folder, Some item)
             else (gt_folder, hazy_folder)
           else (gt_folder, hazy_folder))
        (gt, hazy) l
  = (if bool_decide (lit "GT" ∈ l) && isdir fs (path_join dataset_dir (lit "GT"))
     then Some (lit "GT") else gt,
     if bool_decide (lit "hazy" ∈ l) && isdir fs (path_join dataset_dir (lit "hazy"))
     then Some (lit "hazy") else hazy).
Proof.
  revert gt hazy. induction l as [|item l IH]; intros gt hazy; [done|].
  cbn [foldl]. cbv zeta. rewrite !bool_decide_elem_cons.
  destruct (decide (item = lit "GT")) as [->|Hg];
    [|destruct (decide (item = lit "hazy")) as [->|Hh]].
  - replace (str_eqb (lit "GT") (lit "GT")) with true by (by vm_compute).
    replace (str_eqb (lit "hazy") (lit "GT")) with false by (by vm_compute).
    destruct (isdir fs (path_join dataset_dir (lit "GT"))) eqn:Hd;
      rewrite IH, ?Hd, ?andb_true_r, ?andb_false_r; simpl; [|done].
    by destruct (bool_decide (lit "GT" ∈ l)).
  - replace (str_eqb (lit "hazy") (lit "hazy")) with true by (by vm_compute).
    replace (str_eqb (lit "hazy") (lit "GT")) with false by (by vm_compute).
    replace (str_eqb (lit "GT") (lit "hazy")) with false by (by vm_compute).
    destruct (isdir fs (path_join dataset_dir (lit "hazy"))) eqn:Hd;
      rewrite IH, ?Hd, ?andb_true_r, ?andb_false_r; simpl; [|done].
    by destruct (bool_decide (lit "hazy" ∈ l)).
  - rewrite (str_eqb_neq item (lit "GT")), (str_eqb_neq item (lit "hazy")),
      (str_eqb_neq (lit "GT") item), (str_eqb_neq (lit "hazy") item) by done.
    simpl. destruct (isdir fs (path_join dataset_dir item)); apply IH.
Qed.

Lemma find_gt_hazy_folders_members dataset_dir :
  find_gt_hazy_folders fs dataset_dir
  = (if has_subdir fs dataset_dir (lit "GT") then Some (lit "GT") else None,
     if has_subdir fs dataset_dir (lit "hazy") then Some (lit "hazy") else None).
Proof. apply find_gt_hazy_folders_fold. Qed.
End DiscoveryFacts.


(** C9. The two discovery functions depend on the set of entries of the
    root only, not on the order in which [os.listdir] enumerates them. *)
Theorem discovery_order_independent (fs1 fs2 : FileSystem) (root : str) :
  listdir fs1 root ≡ₚ listdir fs2 root →
  (∀ p, isdir fs1 p = isdir fs2 p) →
  find_custom_folders fs1 root = find_custom_folders fs2 root
  ∧ find_gt_hazy_folders fs1 root = find_gt_hazy_folders fs2 root.
Proof.
  intros Hperm Hdir. split.
  - rewrite !find_custom_folders_filter. apply sorted_perm_eq.
    rewrite Hperm. erewrite list_filter_iff; [done|].
    intros item. unfold is_custom. by rewrite Hdir.
  - rewrite !find_gt_hazy_folders_members. unfold has_subdir.
    rewrite !Hdir.
    assert (∀ x : str, bool_decide (x ∈ listdir fs1 root)
                       = bool_decide (x ∈ listdir fs2 root)) as Hmem.
    { intros x. apply bool_decide_ext. by rewrite Hperm. }
    by rewrite !Hmem.
Qed.

Lemma discovery_order_independent_witness :
  listdir Demo.fs (lit "ds") ≠ listdir Demo.fs_shuffled (lit "ds")
  ∧ find_custom_folders Demo.fs (lit "ds")
    = find_custom_folders Demo.fs_shuffled (lit "ds")
  ∧ find_gt_hazy_folders Demo.fs (lit "ds")
    = find_gt_hazy_folders Demo.fs_shuffled (lit "ds").
Proof.
  split; [by vm_compute|].
  apply (discovery_order_independent Demo.fs Demo.fs_shuffled (lit "ds")).
  - vm_compute.
    (* results_2 GT notes results_1 hazy  ~  hazy results_1 results_2 notes GT *)
    solve_Permutation.
  - intros p. reflexivity.
Defined.


(** ** The world *)

Lemma put_lines_app l1 l2 w : put_lines (l1 ++ l2) w = put_lines l2 (put_lines l1 w).
Proof. apply foldl_app. Qed.

Lemma put_lines_stdout lines w : stdout (put_lines lines w) = stdout w ++ lines.
Proof.
  revert w. induction lines as [|l lines IH]; intros w; simpl.
  - by rewrite app_nil_r.
  - unfold put_lines in *. simpl. rewrite IH. simpl. by rewrite <- app_assoc.
Qed.

Lemma put_lines_saved lines w : saved (put_lines lines w) = saved w.
Proof.
  revert w. induction lines as [|l lines IH]; intros w; [done|].
  unfold put_lines in *. simpl. by rewrite IH.
Qed.

Lemma put_lines_shown lines w : shown (put_lines lines w) = shown w.
Proof.
  revert w. induction lines as [|l lines IH]; intros w; [done|].
  unfold put_lines in *. simpl. by rewrite IH.
Qed.

Lemma put_lines_made_dirs lines w : made_dirs (put_lines lines w) = made_dirs w.
Proof.
  revert w. induction lines as [|l lines IH]; intros w; [done|].
  unfold put_lines in *. simpl. by rewrite IH.
Qed.

(** ** Image lookup *)

Section LookupFacts.
Variable fs : FileSystem.

Lemma probe_run folder_path filename suffix exts w :
  let paths := (λ ext, path_join folder_path (filename ++ suffix ++ ext)) <$> exts in
  probe fs folder_path filename suffix exts w
  = (Ok (snd <$> first_existing fs paths), put_lines (probe_lines fs paths) w).
Proof.
  cbv zeta. revert w. induction exts as [|ext exts IH]; intros w; [done|].
  cbn [probe fmap list_fmap]. unfold probe_lines, first_existing in *.
  cbn [list_find]. destruct (path_exists fs _) eqn:E.
  - rewrite decide_True by done. done.
  - rewrite decide_False by done.
    unfold bind at 1, print at 1. rewrite IH.
    destruct (list_find _ _) as [[i p]|]; done.
Qed.

Lemma find_image_file_run folder_path filename folder_name w :
  find_image_file fs folder_path filename folder_name w
  = (Ok (snd <$> first_existing fs (candidates folder_path filename folder_name)),
     put_lines (probe_lines fs (candidates folder_path filename folder_name)) w).
Proof. apply probe_run. Qed.
End LookupFacts.


(** C8. The probe order is fixed: an existing [.png] candidate is
    returned whatever else exists; without it an existing [.jpg]
    candidate is returned; the [.jpeg] candidate is returned only when
    the two others are missing. *)
Theorem find_image_file_extension_priority
    (fs : FileSystem) (folder_path filename folder_name : str) (w : World) :
  let cand (ext : string) :=
    path_join folder_path (filename ++ name_suffix folder_name ++ lit ext) in
  let found := (find_image_file fs folder_path filename folder_name w).1 in
  (path_exists fs (cand ".png"%string) = true → found = Ok (Some (cand ".png"%string)))
  ∧ (path_exists fs (cand ".png"%string) = false →
     path_exists fs (cand ".jpg"%string) = true → found = Ok (Some (cand ".jpg"%string)))
  ∧ (path_exists fs (cand ".png"%string) = false →
     path_exists fs (cand ".jpg"%string) = false →
     path_exists fs (cand ".jpeg"%string) = true → found = Ok (Some (cand ".jpeg"%string))).
Proof.
  cbv zeta. rewrite find_image_file_run.
  unfold first_existing, candidates, extensions.
  cbn [fmap list_fmap list_find fst].
  split_and!.
  - intros H1. by rewrite decide_True.
  - intros H1 H2. rewrite decide_False by (by rewrite H1). by rewrite decide_True.
  - intros H1 H2 H3. rewrite decide_False by (by rewrite H1).
    rewrite decide_False by (by rewrite H2). by rewrite decide_True.
Qed.

Lemma find_image_file_extension_priority_witness :
  path_exists Demo.fs (lit "ds/hazy/01_hazy.jpg") = true
  ∧ path_exists Demo.fs (lit "ds/hazy/01_hazy.jpeg") = true
  ∧ (find_image_file Demo.fs (lit "ds/hazy") (lit "01") (lit "hazy") empty_world).1
    = Ok (Some (lit "ds/hazy/01_hazy.jpg")).
Proof.
  split; [reflexivity|]. split; [reflexivity|].
  apply (find_image_file_extension_priority
           Demo.fs (lit "ds/hazy") (lit "01") (lit "hazy") empty_world);
    reflexivity.
Defined.

(** ** Loops in the monad *)

Lemma foldM_enumerate {S T X} (rep : T → S) (body : S → nat * X → M S)
    (step : T → nat → X → T) (eff : X → World → World) (P : T → Prop) (n : nat) :
  (∀ t i x w, P t → i < n →
     body (rep t) (i, x) w = (Ok (rep (step t i x)), eff x w)) →
  (∀ t i x, P t → i < n → P (step t i x)) →
  ∀ xs k t w, P t → k + length xs ≤ n →
    foldM body (rep t) (enumerate k xs) w
    = (Ok (rep (foldl (λ t p, step t p.1 p.2) t (enumerate k xs))),
       foldl (λ w x, eff x w) w xs).
Proof.
  intros Hbody HP. induction xs as [|x xs IH]; intros k t w Ht Hk; [done|].
  simpl in *. unfold bind at 1. rewrite Hbody by (done || lia).
  apply IH; [apply HP; (done || lia) | lia].
Qed.

Lemma for_each_run {A} (body : A → M unit) (eff : A → World → World) (l : list A) :
  (∀ x w, x ∈ l → body x w = (Ok tt, eff x w)) →
  ∀ w, for_each l body w = (Ok tt, foldl (λ w x, eff x w) w l).
Proof.
  induction l as [|x l IH]; intros Hbody w; [done|].
  simpl. unfold bind at 1. rewrite Hbody by left.
  apply IH. intros y w' Hy. apply Hbody. by right.
Qed.

(** Applying [g x] at position [k], [k+1], ... of a list, for the
    successive [x] of [xs], is a [zip_with]. *)
Lemma alter_sweep {A X} (g : X → A → A) (xs : list X) (k : nat) (r : list A) :
  length r = k + length xs →
  foldl (λ r p, alter (g p.2) p.1 r) r (enumerate k xs)
  = take k r ++ zip_with g xs (drop k r).
Proof.
  revert k r. induction xs as [|x xs IH]; intros k r Hlen; simpl in *.
  - rewrite take_ge by lia. by rewrite app_nil_r.
  - destruct (lookup_lt_is_Some_2 r k) as [a Ha]; [lia|].
    rewrite IH by (rewrite length_alter; lia).
    rewrite (take_S_r _ _ (g x a)) by (by rewrite list_lookup_alter_eq, Ha).
    rewrite take_alter_ge, drop_alter_lt by lia.
    rewrite (drop_S _ _ _ Ha). simpl. by rewrite <- app_assoc.
Qed.

Lemma foldl_put_lines {X} (f : X → list str) (xs : list X) (w : World) :
  foldl (λ w x, put_lines (f x) w) w xs = put_lines (x ← xs; f x) w.
Proof.
  revert w. induction xs as [|x xs IH]; intros w; [done|].
  simpl. by rewrite IH, put_lines_app.
Qed.

(** ** Ranges and batches *)

(** Linear arithmetic with division by a constant. *)
Ltac div_lia := zify; Z.to_euclidean_division_equations; lia.

Lemma range_from_spec fuel start stop :
  (stop - start + 2) / 3 ≤ fuel →
  range_from fuel start stop 3
  = (λ k, start + 3 * k) <$> seq 0 ((stop - start + 2) / 3).
Proof.
  revert start. induction fuel as [|fuel IH]; intros start Hfuel; cbn [range_from].
  - by replace ((stop - start + 2) / 3) with 0 by div_lia.
  - destruct (Nat.ltb_spec start stop) as [Hlt|Hge].
    + assert ((stop - start + 2) / 3 = S ((stop - (start + 3) + 2) / 3)) as E by div_lia.
      rewrite E in *. rewrite IH by div_lia. cbn [seq fmap list_fmap]. f_equal; [div_lia|].
      rewrite <- fmap_S_seq, <- list_fmap_compose. apply list_fmap_ext.
      intros _ k _. unfold compose. lia.
    + by replace ((stop - start + 2) / 3) with 0 by div_lia.
Qed.

Lemma range_spec n : range 0 n 3 = (λ k, 3 * k) <$> seq 0 ((n + 2) / 3).
Proof.
  unfold range. rewrite range_from_spec.
  - by rewrite Nat.sub_0_r.
  - div_lia.
Qed.

Lemma elem_of_range n i : i ∈ range 0 n 3 → i < n ∧ i / 3 * 3 = i.
Proof.
  rewrite range_spec. intros (k & -> & Hk)%list_elem_of_fmap.
  apply elem_of_seq in Hk. div_lia.
Qed.

Lemma length_slice {A} (l : list A) i : length (slice l i (i + 3)) = min 3 (length l - i).
Proof. unfold slice. rewrite length_take, length_drop. f_equal. lia. Qed.

Lemma batches_lookup filenames k :
  k < (length filenames + 2) / 3 →
  batches filenames !! k = Some (slice filenames (3 * k) (3 * k + 3)).
Proof.
  intros Hk. unfold batches. rewrite range_spec, <- list_fmap_compose, list_lookup_fmap.
  by rewrite lookup_seq_lt.
Qed.

Lemma length_batches filenames : length (batches filenames) = (length filenames + 2) / 3.
Proof. unfold batches. by rewrite range_spec, !length_fmap, length_seq. Qed.


(** ** The canvas of one batch *)

Lemma alter_alter {A} (f g : A → A) (i : nat) (l : list A) :
  alter f i (alter g i l) = alter (f ∘ g) i l.
Proof.
  revert i. induction l as [|x l IH]; intros [|i]; try done.
  cbn. f_equal. apply IH.
Qed.

Lemma well_shaped_alter nrows ncols (f : list Axes → list Axes) row grid :
  well_shaped nrows ncols grid →
  (∀ r, length r = ncols → length (f r) = ncols) →
  well_shaped nrows ncols (alter f row grid).
Proof.
  intros [Hlen Hrows] Hf. split; [by rewrite length_alter|].
  apply Forall_alter; [done|]. intros r _ Hr. by apply Hf.
Qed.

Lemma well_shaped_lookup nrows ncols grid row :
  well_shaped nrows ncols grid → row < nrows →
  ∃ r, grid !! row = Some r ∧ length r = ncols.
Proof.
  intros [Hlen Hrows] Hrow.
  destruct (lookup_lt_is_Some_2 grid row) as [r Hr]; [lia|].
  exists r. split; [done|]. by eapply (Forall_lookup_1 _ _ _ _ Hrows Hr).
Qed.

Lemma subplots_pack nrows ncols :
  1 ≤ nrows → 2 ≤ ncols →
  subplots nrows ncols = Ok (pack (replicate nrows (replicate ncols new_axes))).
Proof.
  intros Hr Hc. destruct nrows as [|[|n]]; [lia| |];
    destruct ncols as [|[|m]]; try lia; unfold subplots; simpl.
  - by rewrite Nat.add_0_r.
  - done.
Qed.

Lemma ax_update_pack grid row col f r :
  grid !! row = Some r → col < length r →
  ax_update (at_cell (length grid) row col) f (pack grid)
  = Ok (pack (alter (alter f col) row grid)).
Proof.
  intros Hr Hcol. apply Nat.ltb_lt in Hcol.
  destruct grid as [|r1 [|r2 rest]]; [done| |].
  - destruct row; simplify_eq/=. by rewrite Hcol.
  - change (at_cell (length (r1 :: r2 :: rest)) row col) with (At2 row col).
    change (pack (r1 :: r2 :: rest)) with (Axes2D (r1 :: r2 :: rest)).
    cbn [ax_update]. rewrite Hr, Hcol. by destruct row as [|[|row]].
Qed.

Lemma foldl_alter_row {A X} (g : X → A → A) row (xs : list X) k (grid : list (list A)) :
  foldl (λ gr p, alter (alter (g p.2) p.1) row gr) grid (enumerate k xs)
  = alter (λ r, foldl (λ r p, alter (g p.2) p.1 r) r (enumerate k xs)) row grid.
Proof.
  revert k grid. induction xs as [|x xs IH]; intros k grid; simpl.
  - by rewrite list_alter_id.
  - by rewrite IH, alter_alter.
Qed.

(** A loop that visits the cells of one row from left to right. *)
Lemma row_loop {X} nrows ncols row (body : AxesArr → nat * X → M AxesArr)
    (g : X → Axes → Axes) (eff : X → World → World) :
  (∀ axes col x w,
     body axes (col, x) w = (ax_update (at_cell nrows row col) (g x) axes, eff x w)) →
  ∀ grid xs w,
    well_shaped nrows ncols grid → row < nrows → length xs = ncols →
    foldM body (pack grid) (enumerate 0 xs) w
    = (Ok (pack (alter (zip_with g xs) row grid)), foldl (λ w x, eff x w) w xs).
Proof.
  intros Hbody grid xs w Hgrid Hrow Hxs.
  rewrite (foldM_enumerate pack body
             (λ gr col x, alter (alter (g x) col) row gr) eff
             (well_shaped nrows ncols) ncols); [|..|done|lia].
  - f_equal. f_equal. f_equal. rewrite foldl_alter_row.
    apply list_alter_ext; [|done]. intros r Hr.
    destruct (well_shaped_lookup _ _ _ _ Hgrid Hrow) as (r' & Hr' & Hlen).
    simplify_eq. by rewrite alter_sweep by lia.
  - intros gr col x w' Hgr Hcol. rewrite Hbody.
    destruct (well_shaped_lookup _ _ _ _ Hgr Hrow) as (r & Hr & Hlen).
    destruct Hgr as [<- _]. f_equal. apply (ax_update_pack _ _ _ _ r); [done|lia].
  - intros gr col x Hgr Hcol. apply well_shaped_alter; [done|].
    intros r Hr. by rewrite length_alter.
Qed.

Lemma foldl_const {A X} (xs : list X) (a : A) : foldl (λ a _, a) a xs = a.
Proof. by induction xs. Qed.

Section GridFacts.
Variable fs : FileSystem.
Variables (dataset_dir : str) (filenames folders column_labels : list str).
Variable save_dir : option str.
Hypothesis two_columns : 2 ≤ length folders.
Hypothesis one_label_per_column : length column_labels = length folders.

Lemma render_batch_run batch_idx w :
  batch_idx < length filenames →
  render_batch fs dataset_dir filenames folders column_labels save_dir batch_idx w
  = (Ok tt,
     batch_world fs dataset_dir folders column_labels filenames save_dir batch_idx w).
Proof.
  intros Hidx. unfold render_batch, batch_world.
  set (batch := slice filenames batch_idx (batch_idx + 3)).
  assert (1 ≤ length batch) as Hbatch.
  { unfold batch. rewrite length_slice. lia. }
  set (nrows := length batch). set (ncols := length folders).
  unfold bind at 1. unfold lift at 1. rewrite subplots_pack by done.
  (* the column labels *)
  unfold bind at 1.
  rewrite (row_loop nrows ncols 0 _ (header) (λ _ w, w)); cycle 1.
  { by intros axes col label w'. }
  { split; [apply length_replicate|]. apply Forall_replicate, length_replicate. }
  { done. }
  { done. }
  rewrite foldl_const.
  (* the cells, row by row *)
  unfold bind at 1.
  rewrite (foldM_enumerate pack _
             (λ gr row filename,
                alter (zip_with (cell fs dataset_dir filename) folders) row gr)
             (λ filename,
                put_lines (folder ← folders; cell_lines fs dataset_dir filename folder))
             (well_shaped nrows ncols) nrows); cycle 1.
  { intros gr row filename w' Hgr Hrow.
    rewrite (row_loop nrows ncols row _ (cell fs dataset_dir filename)
               (λ folder, put_lines (cell_lines fs dataset_dir filename folder)));
      [|..|done|done|done].
    - by rewrite foldl_put_lines.
    - intros axes col folder w''. unfold bind. by rewrite find_image_file_run. }
  { intros gr row filename Hgr Hrow. apply well_shaped_alter; [done|].
    intros r Hr. rewrite length_zip_with. unfold ncols in *. lia. }
  { apply well_shaped_alter.
    - split; [apply length_replicate|]. apply Forall_replicate, length_replicate.
    - intros r Hr. rewrite length_zip_with. unfold ncols in *. lia. }
  { done. }
  rewrite foldl_put_lines.
  rewrite (alter_sweep (λ filename, zip_with (cell fs dataset_dir filename) folders))
    by (rewrite length_alter, length_replicate; done).
  rewrite drop_0, take_0, app_nil_l.
  assert (alter (zip_with header column_labels) 0
                (replicate nrows (replicate ncols new_axes))
          = zip_with header column_labels (replicate ncols new_axes)
            :: replicate (nrows - 1) (replicate ncols new_axes)) as ->.
  { assert (nrows = S (nrows - 1)) as Hn by (unfold nrows; lia).
    by rewrite Hn at 1. }
  by destruct save_dir as [[|c d]|].
Qed.

Lemma render_batches_run w :
  for_each (range 0 (length filenames) 3)
           (render_batch fs dataset_dir filenames folders column_labels save_dir) w
  = (Ok tt,
     foldl (λ w batch_idx,
              batch_world fs dataset_dir folders column_labels filenames save_dir
                          batch_idx w)
           w (range 0 (length filenames) 3)).
Proof.
  apply for_each_run. intros batch_idx w' Hidx.
  apply render_batch_run. by apply elem_of_range in Hidx as [? _].
Qed.
End GridFacts.

(** ** The whole run *)

Lemma add_label_step acc k m l w :
  foldM add_label acc (enumerate k (m :: l)) w
  = if (64 + N.of_nat k <=? 1114111)%N
    then foldM add_label (acc ++ [lit "Method " ++ [(64 + N.of_nat k)%N]])
               (enumerate (S k) l) w
    else (Raise ValueError, w).
Proof.
  cbn [enumerate foldM]. unfold bind at 1, add_label at 1, bind at 1, lift, chr.
  cbn [fst]. by destruct (64 + N.of_nat k <=? 1114111)%N.
Qed.

Lemma imap_labels_cons (k : nat) (m : str) (l : list str) (acc : list str) :
  (acc ++ [lit "Method " ++ [(64 + N.of_nat k)%N]])
    ++ imap (λ i _, lit "Method " ++ [(64 + N.of_nat (S k + i))%N]) l
  = acc ++ imap (λ i _, lit "Method " ++ [(64 + N.of_nat (k + i))%N]) (m :: l).
Proof.
  rewrite imap_cons, <- app_assoc. cbn [app]. rewrite Nat.add_0_r.
  do 2 f_equal. apply imap_ext. intros i x _. unfold compose.
  by replace (S k + i) with (k + S i) by lia.
Qed.

Lemma add_labels_cases methods k acc w :
  foldM add_label acc (enumerate k methods) w
  = (Ok (acc ++ imap (λ i _, lit "Method " ++ [(64 + N.of_nat (k + i))%N]) methods), w)
  ∨ foldM add_label acc (enumerate k methods) w = (Raise ValueError, w).
Proof.
  revert k acc. induction methods as [|m methods IH]; intros k acc.
  - left. simpl. by rewrite app_nil_r.
  - rewrite add_label_step. destruct (64 + N.of_nat k <=? 1114111)%N; [|by right].
    rewrite <- (imap_labels_cons k m). apply IH.
Qed.

Lemma imap_labels_1 (l : list str) :
  imap (λ i _, lit "Method " ++ [(64 + N.of_nat (1 + i))%N]) l
  = imap (λ i _, method_label i) l.
Proof.
  apply imap_ext. intros i x _. unfold method_label. do 2 f_equal. lia.
Qed.

Lemma add_labels_ok methods acc w :
  (N.of_nat (length methods) ≤ 1114047)%N →
  foldM add_label acc (enumerate 1 methods) w
  = (Ok (acc ++ imap (λ i _, method_label i) methods), w).
Proof.
  intros Hfit.
  enough (∀ l k acc,
    (N.of_nat (k + length l) ≤ 1114048)%N →
    foldM add_label acc (enumerate k l) w
    = (Ok (acc ++ imap (λ i _, lit "Method " ++ [(64 + N.of_nat (k + i))%N]) l), w))
    as H.
  { rewrite H by lia. by rewrite imap_labels_1. }
  clear. induction l as [|m l IH]; intros k acc Hfit.
  - simpl. by rewrite app_nil_r.
  - rewrite add_label_step. cbn [length] in Hfit.
    destruct (N.leb_spec (64 + N.of_nat k) 1114111); [|lia].
    rewrite <- (imap_labels_cons k m). apply IH. lia.
Qed.

Lemma lit_GT : lit "GT" = [71%N; 84%N].
Proof. reflexivity. Qed.

Section RunFacts.
Variable fs : FileSystem.
Variables (dataset_dir : str) (filenames : list str).
Variables (custom_folders : option (list str)) (save_dir : option str).

Let methods := methods_of fs dataset_dir custom_folders.
Let folders := [lit "hazy"] ++ methods ++ [lit "GT"].

Lemma create_grid_refuses w :
  has_subdir fs dataset_dir (lit "GT") = false
  ∨ has_subdir fs dataset_dir (lit "hazy") = false →
  create_grid fs dataset_dir filenames custom_folders save_dir w
  = (Ok tt, put_line (lit "Error: Could not find GT or hazy folders") w).
Proof.
  intros H. unfold create_grid. rewrite find_gt_hazy_folders_members.
  destruct H as [-> | ->]; [done|].
  destruct (has_subdir fs dataset_dir (lit "GT")); [|done].
  by rewrite lit_GT.
Qed.

Lemma create_grid_unfold w :
  has_subdir fs dataset_dir (lit "GT") = true →
  has_subdir fs dataset_dir (lit "hazy") = true →
  create_grid fs dataset_dir filenames custom_folders save_dir w
  = (column_labels <- foldM add_label [lit "Hazy Input"] (enumerate 1 methods) ;;
     for_each (range 0 (length filenames) 3)
              (render_batch fs dataset_dir filenames folders
                            (column_labels ++ [lit "Reference (GT)"]) save_dir)) w.
Proof.
  intros Hgt Hhazy. unfold create_grid.
  rewrite find_gt_hazy_folders_members, Hgt, Hhazy. done.
Qed.

Lemma create_grid_run w :
  has_subdir fs dataset_dir (lit "GT") = true →
  has_subdir fs dataset_dir (lit "hazy") = true →
  (N.of_nat (length methods) ≤ 1114047)%N →
  create_grid fs dataset_dir filenames custom_folders save_dir w
  = (Ok tt,
     foldl (λ w batch_idx,
              batch_world fs dataset_dir folders (labels_for methods) filenames
                          save_dir batch_idx w)
           w (range 0 (length filenames) 3)).
Proof.
  intros Hgt Hhazy Hfit. rewrite create_grid_unfold by done.
  unfold bind. rewrite add_labels_ok by done.
  apply render_batches_run; unfold folders.
  - rewrite !length_app. simpl. lia.
  - unfold labels_for. rewrite !length_app, length_imap. simpl. lia.
Qed.

Lemma create_grid_cases w :
  let run := create_grid fs dataset_dir filenames custom_folders save_dir w in
  run = (Ok tt, put_line (lit "Error: Could not find GT or hazy folders") w)
  ∨ run = (Raise ValueError, w)
  ∨ run = (Ok tt,
           foldl (λ w batch_idx,
                    batch_world fs dataset_dir folders (labels_for methods)
                                filenames save_dir batch_idx w)
                 w (range 0 (length filenames) 3)).
Proof.
  cbv zeta.
  destruct (has_subdir fs dataset_dir (lit "GT")) eqn:Hgt;
    [|left; apply create_grid_refuses; by left].
  destruct (has_subdir fs dataset_dir (lit "hazy")) eqn:Hhazy;
    [|left; apply create_grid_refuses; by right].
  right. rewrite create_grid_unfold by done. unfold bind.
  destruct (add_labels_cases methods 1 [lit "Hazy Input"] w) as [E | E];
    rewrite E; [right|by left].
  rewrite imap_labels_1.
  apply render_batches_run; unfold folders.
  - rewrite !length_app. simpl. lia.
  - unfold labels_for. rewrite !length_app, length_imap. simpl. lia.
Qed.
End RunFacts.

(** ** What a run leaves behind *)

Section Outputs.
Variable fs : FileSystem.
Variables (dataset_dir : str) (folders labels filenames : list str).

Let draw := canvas fs dataset_dir folders labels.
Let after := batches_world fs dataset_dir folders labels filenames.

Lemma saved_after_saving c d idxs w :
  saved (after (Some (c :: d)) idxs w)
  = saved w ++ ((λ i, (batch_path (c :: d) (i / 3 + 1),
                       draw (slice filenames i (i + 3)))) <$> idxs)
  ∧ shown (after (Some (c :: d)) idxs w) = shown w.
Proof.
  revert w. induction idxs as [|i idxs IH]; intros w.
  - by rewrite app_nil_r.
  - unfold after, batches_world in *. cbn [foldl fmap list_fmap].
    destruct (IH (batch_world fs dataset_dir folders labels filenames
                              (Some (c :: d)) i w)) as [-> ->].
    unfold batch_world. cbn [saved shown put_line put_saved put_dir].
    by rewrite put_lines_saved, put_lines_shown, <- app_assoc.
Qed.

Lemma shown_after_showing save_dir idxs w :
  truthy save_dir = false →
  shown (after save_dir idxs w)
  = shown w ++ ((λ i, draw (slice filenames i (i + 3))) <$> idxs)
  ∧ saved (after save_dir idxs w) = saved w
  ∧ made_dirs (after save_dir idxs w) = made_dirs w.
Proof.
  intros Hs. revert w. induction idxs as [|i idxs IH]; intros w.
  - by rewrite app_nil_r.
  - unfold after, batches_world in *. cbn [foldl fmap list_fmap].
    destruct (IH (batch_world fs dataset_dir folders labels filenames save_dir i w))
      as (-> & -> & ->).
    unfold batch_world. destruct save_dir as [[|c d]|]; try done;
      cbn [saved shown made_dirs put_shown];
      by rewrite put_lines_saved, put_lines_shown, put_lines_made_dirs, <- app_assoc.
Qed.

Lemma fmap_range_batches {B} (F : nat → list str → B) :
  (λ i, F (i / 3) (slice filenames i (i + 3))) <$> range 0 (length filenames) 3
  = imap F (batches filenames).
Proof.
  unfold batches. rewrite range_spec, <- !list_fmap_compose.
  apply list_eq. intros k. rewrite list_lookup_imap, !list_lookup_fmap.
  destruct (seq 0 ((length filenames + 2) / 3) !! k) as [j|] eqn:E; [|done].
  apply lookup_seq in E as [-> _]. cbn [fmap option_fmap option_map compose Nat.add].
  by replace (3 * k / 3) with k by div_lia.
Qed.

Lemma rendered_after save_dir :
  rendered (after save_dir (range 0 (length filenames) 3) empty_world)
  = draw <$> batches filenames.
Proof.
  unfold rendered. destruct (truthy save_dir) eqn:Hs.
  - destruct save_dir as [[|c d]|]; try done.
    destruct (saved_after_saving c d (range 0 (length filenames) 3) empty_world)
      as [-> ->].
    cbn [saved shown empty_world app]. rewrite app_nil_r, <- list_fmap_compose.
    rewrite <- (imap_const draw), <- (fmap_range_batches (const draw)). done.
  - destruct (shown_after_showing save_dir (range 0 (length filenames) 3)
                                  empty_world Hs) as (-> & -> & _).
    cbn [saved shown empty_world app fmap list_fmap].
    rewrite <- (imap_const draw), <- (fmap_range_batches (const draw)). done.
Qed.

Lemma saved_batches c d w :
  saved (after (Some (c :: d)) (range 0 (length filenames) 3) w)
  = saved w ++ imap (λ k batch, (batch_path (c :: d) (k + 1), draw batch))
                    (batches filenames).
Proof.
  destruct (saved_after_saving c d (range 0 (length filenames) 3) w) as [-> _].
  f_equal. apply (fmap_range_batches
                    (λ k batch, (batch_path (c :: d) (k + 1), draw batch))).
Qed.

Lemma shown_batches save_dir w :
  truthy save_dir = false →
  shown (after save_dir (range 0 (length filenames) 3) w)
  = shown w ++ (draw <$> batches filenames).
Proof.
  intros Hs.
  destruct (shown_after_showing save_dir (range 0 (length filenames) 3) w Hs)
    as (-> & _).
  f_equal. rewrite <- (imap_const draw), <- (fmap_range_batches (const draw)). done.
Qed.
End Outputs.

Lemma batch_sizes filenames k batch :
  batches filenames !! k = Some batch →
  batch = slice filenames (3 * k) (3 * k + 3)
  ∧ length batch = min 3 (length filenames - 3 * k)
  ∧ 1 ≤ length batch.
Proof.
  intros Hk. assert (k < (length filenames + 2) / 3) as Hlt.
  { rewrite <- length_batches. by eapply lookup_lt_Some. }
  rewrite batches_lookup in Hk by done. simplify_eq.
  split; [done|]. rewrite length_slice. split; [done|]. div_lia.
Qed.

(** ** The cells of a canvas *)

Section CanvasFacts.
Variable fs : FileSystem.
Variables (dataset_dir : str) (folders labels : list str).
Hypothesis one_label_per_column : length labels = length folders.

Lemma length_canvas_rows batch :
  length (canvas_rows fs dataset_dir folders labels batch) = length batch.
Proof.
  unfold canvas_rows. rewrite length_zip_with. cbn [length].
  rewrite length_replicate. lia.
Qed.

Lemma fig_grid_canvas batch :
  fig_grid (canvas fs dataset_dir folders labels batch)
  = canvas_rows fs dataset_dir folders labels batch.
Proof.
  unfold fig_grid, canvas. cbn [fig_axes fig_nrows].
  rewrite <- length_canvas_rows.
  by destruct (canvas_rows _ _ _ _ _) as [|r [|r' g]].
Qed.

Lemma canvas_shape batch :
  well_shaped (length batch) (length folders)
              (canvas_rows fs dataset_dir folders labels batch).
Proof.
  split; [apply length_canvas_rows|].
  unfold canvas_rows. apply Forall_lookup_2. intros row r.
  rewrite lookup_zip_with.
  destruct (batch !! row) as [filename|]; [|done]. cbn [mbind option_bind].
  destruct row as [|row]; rewrite lookup_cons; cbn [mbind option_bind].
  - intros [= <-]. rewrite !length_zip_with, length_replicate. lia.
  - destruct (replicate _ _ !! row) as [r'|] eqn:E; [|done].
    apply lookup_replicate in E as [-> _]. cbn [mbind option_bind]. intros [= <-].
    rewrite length_zip_with, length_replicate. lia.
Qed.

(** The subplot in row [row] and column [col] is the cell drawn for
    the identifier of the row and the folder of the column, on top of
    the column label in the first row. *)
Lemma canvas_cell batch row col filename folder :
  batch !! row = Some filename → folders !! col = Some folder →
  ∃ label,
    labels !! col = Some label
    ∧ canvas_rows fs dataset_dir folders labels batch !! row ≫= (.!! col)
      = Some (cell fs dataset_dir filename folder
                   (if row =? 0 then header label new_axes else new_axes)).
Proof.
  intros Hrow Hcol.
  assert (col < length folders) as Hc by (by eapply lookup_lt_Some).
  assert (row < length batch) as Hr by (by eapply lookup_lt_Some).
  destruct (lookup_lt_is_Some_2 labels col) as [label Hlabel]; [lia|].
  exists label. split; [done|].
  unfold canvas_rows. rewrite lookup_zip_with, Hrow. cbn [mbind option_bind].
  destruct row as [|row]; rewrite lookup_cons; cbn [mbind option_bind Nat.eqb].
  - rewrite !lookup_zip_with, Hcol, Hlabel. cbn [mbind option_bind].
    by rewrite lookup_replicate_2.
  - rewrite lookup_replicate_2 by lia. cbn [mbind option_bind].
    rewrite lookup_zip_with, Hcol. cbn [mbind option_bind].
    by rewrite lookup_replicate_2.
Qed.
End CanvasFacts.



(** A candidate path is never the empty string. *)
Lemma path_join_nonempty (a b : str) : b ≠ [] → path_join a b ≠ [].
Proof.
  intros Hb. unfold path_join. destruct (startswith b sep); [done|].
  destruct (str_eqb a [] || endswith a sep); intros H;
    apply app_eq_nil in H as [_ H]; [done|]. by apply app_eq_nil in H as [H _].
Qed.

Lemma cell_path_nonempty fs dataset_dir filename folder p :
  cell_path fs dataset_dir filename folder = Some p → p ≠ [].
Proof.
  unfold cell_path, first_existing. intros Hp.
  apply fmap_Some in Hp as ([i q] & Hfind & ->).
  apply list_find_Some in Hfind as (Hq & _ & _).
  apply list_elem_of_lookup_2, list_elem_of_fmap in Hq as (ext & -> & _).
  apply path_join_nonempty. unfold name_suffix. intros H.
  apply app_eq_nil in H as [_ H]. apply app_eq_nil in H as [H _].
  by destruct (str_eqb folder (lit "GT")).
Qed.

(** ** The claims about [create_grid] *)



(** C10. Without identifiers there is no batch: nothing is saved, nothing
    is shown and no directory is created, whatever the folders and the
    save directory; with [GT] and [hazy] present the call returns
    normally and leaves the world as it was. *)
Theorem create_grid_no_identifiers
    (fs : FileSystem) (dataset_dir : str)
    (custom_folders : option (list str)) (save_dir : option str) (w : World) :
  let run := create_grid fs dataset_dir [] custom_folders save_dir w in
  batches [] = []
  ∧ saved run.2 = saved w
  ∧ shown run.2 = shown w
  ∧ made_dirs run.2 = made_dirs w
  ∧ (has_subdir fs dataset_dir (lit "GT") = true →
     has_subdir fs dataset_dir (lit "hazy") = true →
     (N.of_nat (length (methods_of fs dataset_dir custom_folders)) ≤ 1114047)%N →
     run = (Ok tt, w)).
Proof.
  cbv zeta.
  assert (∀ proj : World → list str * list (str * Figure) * list Figure,
            proj (create_grid fs dataset_dir [] custom_folders save_dir w).2
            = proj (put_line (lit "Error: Could not find GT or hazy folders") w)
            ∨ proj (create_grid fs dataset_dir [] custom_folders save_dir w).2
              = proj w) as Hcases.
  { intros proj.
    destruct (create_grid_cases fs dataset_dir [] custom_folders save_dir w)
      as [-> | [-> | ->]]; auto. }
  split_and!.
  - done.
  - by destruct (Hcases (λ w, ([], saved w, []))) as [[=] | [=]].
  - by destruct (Hcases (λ w, ([], [], shown w))) as [[=] | [=]].
  - by destruct (Hcases (λ w, (made_dirs w, [], []))) as [[=] | [=]].
  - intros Hgt Hhazy Hfit. by rewrite create_grid_run.
Qed.

Lemma create_grid_no_identifiers_witness :
  create_grid Demo.fs (lit "ds") [] None (Some (lit "out")) empty_world
  = (Ok tt, empty_world).
Proof.
  apply (create_grid_no_identifiers Demo.fs (lit "ds") None (Some (lit "out"))
           empty_world); [reflexivity|reflexivity|].
  vm_compute. discriminate.
Defined.

#[global] Instance Ok_inj {A} : Inj (=) (=) (@Ok A).
Proof. by intros x y [= ->]. Qed.

(** C4. The two members returned by [find_gt_hazy_folders] are found
    independently: the first is [GT] when the root has a subdirectory of
    that exact name and [None] otherwise, the second likewise for
    [hazy].  When either is [None], [create_grid] prints one message
    and returns without rendering, saving or creating anything. *)
Theorem base_folders_found_or_refused (fs : FileSystem) (dataset_dir : str) :
  let message := lit "Error: Could not find GT or hazy folders" in
  (find_gt_hazy_folders fs dataset_dir).1
  = (if has_subdir fs dataset_dir (lit "GT") then Some (lit "GT") else None)
  ∧ (find_gt_hazy_folders fs dataset_dir).2
    = (if has_subdir fs dataset_dir (lit "hazy") then Some (lit "hazy") else None)
  ∧ (∀ name, has_subdir fs dataset_dir name = true
             ↔ name ∈ listdir fs dataset_dir
               ∧ isdir fs (path_join dataset_dir name) = true)
  ∧ ∀ filenames custom_folders save_dir w,
      (find_gt_hazy_folders fs dataset_dir).1 = None
      ∨ (find_gt_hazy_folders fs dataset_dir).2 = None →
      ∃ w',
        create_grid fs dataset_dir filenames custom_folders save_dir w = (Ok tt, w')
        ∧ stdout w' = stdout w ++ [message]
        ∧ saved w' = saved w ∧ shown w' = shown w ∧ made_dirs w' = made_dirs w.
Proof.
  cbv zeta. rewrite find_gt_hazy_folders_members. split_and!; try done.
  - intros name. unfold has_subdir.
    by rewrite andb_true_iff, bool_decide_eq_true.
  - intros filenames custom_folders save_dir w Hnone.
    exists (put_line (lit "Error: Could not find GT or hazy folders") w).
    split; [|done]. apply create_grid_refuses. cbn [fst snd] in Hnone.
    destruct Hnone as [H | H]; [left|right];
      by destruct (has_subdir fs dataset_dir _).
Qed.

Lemma base_folders_found_or_refused_witness :
  find_gt_hazy_folders Demo.fs_no_gt (lit "ds") = (None, Some (lit "hazy"))
  ∧ ∃ w',
      create_grid Demo.fs_no_gt (lit "ds") Demo.ids None (Some (lit "out")) empty_world
      = (Ok tt, w')
      ∧ stdout w' = [lit "Error: Could not find GT or hazy folders"]
      ∧ saved w' = [] ∧ shown w' = [] ∧ made_dirs w' = [].
Proof.
  split; [reflexivity|].
  destruct (base_folders_found_or_refused Demo.fs_no_gt (lit "ds"))
    as (_ & _ & _ & Hrefuse).
  apply (Hrefuse Demo.ids None (Some (lit "out")) empty_world).
  left. reflexivity.
Defined.

Lemma draw_cell_head_text fs (image_path : option str) (label : str) :
  head (ax_texts (draw_cell fs image_path (header label new_axes)))
  = Some {| text_x := 1 # 2; text_y := 5 # 4; text_s := label |}.
Proof.
  unfold draw_cell. destruct image_path as [[|c p]|]; try done.
  by destruct (load_image fs (c :: p)).
Qed.



(** C2 (as amended). Every figure rendered by [create_grid] has
    [1 + |method folders| + 1] columns and one row per identifier of its
    batch.  The columns are [hazy], then the method folders in the order
    of the list [create_grid] works with, then [GT]: that list is the
    sorted result of [find_custom_folders] when no list is passed, and
    the caller's list, in the caller's order, otherwise.  The first row
    carries the labels ['Hazy Input'], ['Method A'], ['Method B'], ...
    (the letter of method [j] is [chr(65 + j)]) and ['Reference (GT)']. *)
Theorem create_grid_canvas_columns
    (fs : FileSystem) (dataset_dir : str) (filenames : list str)
    (custom_folders : option (list str)) (save_dir : option str)
    (i : nat) (fig : Figure) :
  rendered (create_grid fs dataset_dir filenames custom_folders save_dir
                        empty_world).2 !! i = Some fig →
  let methods := match custom_folders with
                 | None => find_custom_folders fs dataset_dir
                 | Some l => l
                 end in
  let folders := [lit "hazy"] ++ methods ++ [lit "GT"] in
  let labels := [lit "Hazy Input"]
                ++ imap (λ j _, lit "Method " ++ [(65 + N.of_nat j)%N]) methods
                ++ [lit "Reference (GT)"] in
  ∃ batch,
    batches filenames !! i = Some batch
    ∧ fig = canvas fs dataset_dir folders labels batch
    ∧ fig_ncols fig = 1 + length methods + 1
    ∧ fig_nrows fig = length batch
    ∧ well_shaped (length batch) (1 + length methods + 1) (fig_grid fig)
    ∧ (custom_folders = None → StronglySorted str_le methods)
    ∧ lit "Method " ++ [(65 + N.of_nat 0)%N] = lit "Method A"
    ∧ lit "Method " ++ [(65 + N.of_nat 1)%N] = lit "Method B"
    ∧ (∀ col label, labels !! col = Some label →
         ∃ ax, fig_grid fig !! 0 ≫= (.!! col) = Some ax
               ∧ head (ax_texts ax)
                 = Some {| text_x := 1 # 2; text_y := 5 # 4; text_s := label |})
    ∧ (∀ row col filename folder,
         batch !! row = Some filename → folders !! col = Some folder →
         ∃ ax, fig_grid fig !! row ≫= (.!! col) = Some ax
               ∧ ax_axis_on ax = false
               ∧ (ax_images ax
                  = match (find_image_file fs (path_join dataset_dir folder)
                                           filename folder empty_world).1 with
                    | Ok (Some p) =>
                        match load_image fs p with
                        | Some img => [img]
                        | None => []
                        end
                    | _ => []
                    end)).
Proof.
  intros Hfig. cbv zeta.
  change (match custom_folders with None => _ | Some l => l end)
    with (methods_of fs dataset_dir custom_folders).
  set (methods := methods_of fs dataset_dir custom_folders).
  change ([lit "Hazy Input"] ++ imap _ methods ++ [lit "Reference (GT)"])
    with (labels_for methods).
  set (folders := [lit "hazy"] ++ methods ++ [lit "GT"]).
  assert (length (labels_for methods) = length folders) as Hlabels.
  { unfold labels_for, folders. rewrite !length_app, length_imap. simpl. lia. }
  assert (length folders = 1 + length methods + 1) as Hcols.
  { unfold folders. rewrite !length_app. simpl. lia. }
  destruct (create_grid_cases fs dataset_dir filenames custom_folders save_dir
              empty_world) as [E | [E | E]];
    rewrite E in Hfig; cbn [snd] in Hfig; try done.
  change (foldl _ empty_world ?idxs) with
    (batches_world fs dataset_dir folders (labels_for methods) filenames save_dir
                   idxs empty_world) in Hfig.
  rewrite rendered_after in Hfig.
  apply list_lookup_fmap_Some_1 in Hfig as (batch & -> & Hbatch).
  exists batch. rewrite (fig_grid_canvas _ _ _ _ Hlabels).
  destruct (batch_sizes _ _ _ Hbatch) as (_ & _ & Hnonempty).
  split_and!; try done.
  - rewrite <- Hcols. apply canvas_shape. done.
  - intros ->. unfold methods, methods_of.
    rewrite find_custom_folders_filter. apply sorted_Sorted.
  - intros col label Hlabel.
    destruct (lookup_lt_is_Some_2 batch 0) as [filename Hrow]; [lia|].
    destruct (lookup_lt_is_Some_2 folders col) as [folder Hcol].
    { rewrite <- Hlabels. by eapply lookup_lt_Some. }
    destruct (canvas_cell fs dataset_dir folders (labels_for methods) Hlabels
                batch 0 col filename folder Hrow Hcol) as (label' & Hl & Hcell).
    simplify_eq. eexists. split; [exact Hcell|]. apply draw_cell_head_text.
  - intros row col filename folder Hrow Hcol.
    destruct (canvas_cell fs dataset_dir folders (labels_for methods) Hlabels
                batch row col filename folder Hrow Hcol) as (label & _ & Hcell).
    eexists. split; [exact Hcell|]. split; [done|].
    rewrite find_image_file_run. cbn [fst]. unfold cell, draw_cell.
    fold (cell_path fs dataset_dir filename folder).
    destruct (cell_path fs dataset_dir filename folder) as [[|c p]|] eqn:Hp.
    + by apply cell_path_nonempty in Hp.
    + destruct (load_image fs (c :: p)); by destruct (row =? 0).
    + by destruct (row =? 0).
Qed.

Lemma create_grid_canvas_columns_witness :
  ∃ fig ax,
    rendered (create_grid Demo.fs (lit "ds") Demo.ids None (Some (lit "out"))
                          empty_world).2 !! 0 = Some fig
    ∧ fig_ncols fig = 4 ∧ fig_nrows fig = 3
    ∧ fig_grid fig !! 0 ≫= (.!! 1) = Some ax
    ∧ head (ax_texts ax)
      = Some {| text_x := 1 # 2; text_y := 5 # 4; text_s := lit "Method A" |}.
Proof.
  eexists.
  destruct (create_grid_canvas_columns Demo.fs (lit "ds") Demo.ids None
              (Some (lit "out")) 0 _ eq_refl)
    as (batch & Hbatch & _ & Hcols & Hrows & _ & _ & _ & _ & Hlabel & _).
  destruct (Hlabel 1 (lit "Method A") eq_refl) as (ax & Hax & Hhead).
  exists ax. split; [reflexivity|]. split; [exact Hcols|].
  split; [reflexivity|]. split; [exact Hax|exact Hhead].
Defined.

(** C2 as stated fails when the caller passes the method folders in an
    order of their own: the columns follow that order, not the sorted
    one.  Here [results_2] is passed before [results_1]; the second
    column of the figure shows the image found in [results_2]. *)
Lemma create_grid_columns_sorted_counterexample :
  let custom := [lit "results_2"; lit "results_1"] in
  let run := create_grid Demo.fs (lit "ds") [lit "01"] (Some custom)
                         (Some (lit "out")) empty_world in
  ∃ fig ax,
    batches [lit "01"] = [[lit "01"]]
    ∧ run.1 = Ok tt
    ∧ rendered run.2 = [fig]
    ∧ sorted custom = [lit "results_1"; lit "results_2"]
    ∧ fig = canvas Demo.fs (lit "ds") ([lit "hazy"] ++ custom ++ [lit "GT"])
                   (labels_for custom) [lit "01"]
    ∧ fig ≠ canvas Demo.fs (lit "ds") ([lit "hazy"] ++ sorted custom ++ [lit "GT"])
                   (labels_for custom) [lit "01"]
    ∧ fig_grid fig !! 0 ≫= (.!! 1) = Some ax
    ∧ load_image Demo.fs (lit "ds/results_2/01_hazy.png") = Some (hd [] (ax_images ax))
    ∧ load_image Demo.fs (lit "ds/results_1/01_hazy.jpeg") ≠ Some (hd [] (ax_images ax)).
Proof.
  cbv zeta. eexists. eexists. split_and!; try reflexivity.
  - vm_compute. discriminate.
  - vm_compute. discriminate.
Qed.

(** ** The two examples of the specification, run on the model *)

(** [GT], [hazy] and [results_1], identifiers 01, 02 and 04, every file
    present: one file is saved, with three rows of three images and the
    three column labels in the first row. *)
Example all_files_present :
  let run := create_grid (Demo.fs_complete []) (lit "ds")
                         [lit "01"; lit "02"; lit "04"] None (Some (lit "out"))
                         empty_world in
  run.1 = Ok tt
  ∧ fst <$> saved run.2 = [lit "out/grid_batch_1.png"]
  ∧ made_dirs run.2 = [lit "out"]
  ∧ (figure_summary ∘ snd) <$> saved run.2
    = [[[(1, [lit "Hazy Input"]); (1, [lit "Method A"]); (1, [lit "Reference (GT)"])];
        [(1, []); (1, []); (1, [])];
        [(1, []); (1, []); (1, [])]]].
Proof. cbv zeta. split_and!; reflexivity. Qed.

(** The same with [results_1/01_hazy.png] absent: the batch is still
    saved, and the cell of row 0 under ['Method A'] is the placeholder. *)
Example one_file_absent :
  let run := create_grid (Demo.fs_complete [lit "ds/results_1/01_hazy.png"])
                         (lit "ds") [lit "01"; lit "02"; lit "04"] None
                         (Some (lit "out")) empty_world in
  run.1 = Ok tt
  ∧ fst <$> saved run.2 = [lit "out/grid_batch_1.png"]
  ∧ (figure_summary ∘ snd) <$> saved run.2
    = [[[(1, [lit "Hazy Input"]); (0, [lit "Method A"; placeholder]);
         (1, [lit "Reference (GT)"])];
        [(1, []); (1, []); (1, [])];
        [(1, []); (1, []); (1, [])]]]
  ∧ take 4 (stdout run.2)
    = [lit "Found image file: ds/hazy/01_hazy.png";
       lit "Image file not found: ds/results_1/01_hazy.png";
       lit "Image file not found: ds/results_1/01_hazy.jpg";
       lit "Image file not found: ds/results_1/01_hazy.jpeg"].
Proof. cbv zeta. split_and!; reflexivity. Qed.

(** * Further properties of the code *)

(** ** When [create_grid] raises *)

Lemma add_labels_overflow (l : list str) (k : nat) acc w :
  (N.of_nat k ≤ 1114048)%N →
  (1114048 < N.of_nat (k + length l))%N →
  foldM add_label acc (enumerate k l) w = (Raise ValueError, w).
Proof.
  revert k acc. induction l as [|m l IH]; intros k acc Hk Hlen.
  - cbn [length] in Hlen. lia.
  - rewrite add_label_step. cbn [length] in Hlen.
    destruct (N.leb_spec (64 + N.of_nat k) 1114111); [|done].
    apply IH; lia.
Qed.

Section RunOutcome.
Variable fs : FileSystem.
Variables (dataset_dir : str) (filenames : list str).
Variables (custom_folders : option (list str)) (save_dir : option str).

Let methods := methods_of fs dataset_dir custom_folders.
Let folders := [lit "hazy"] ++ methods ++ [lit "GT"].

(** The three ways a call can end, by what decides them. *)
Lemma create_grid_outcome w :
  create_grid fs dataset_dir filenames custom_folders save_dir w
  = if has_subdir fs dataset_dir (lit "GT") && has_subdir fs dataset_dir (lit "hazy")
    then
      if (N.of_nat (length methods) <=? 1114047)%N
      then (Ok tt,
            batches_world fs dataset_dir folders (labels_for methods) filenames
                          save_dir (range 0 (length filenames) 3) w)
      else (Raise ValueError, w)
    else (Ok tt, put_line (lit "Error: Could not find GT or hazy folders") w).
Proof.
  destruct (has_subdir fs dataset_dir (lit "GT")) eqn:Hgt;
    [|apply create_grid_refuses; by left].
  destruct (has_subdir fs dataset_dir (lit "hazy")) eqn:Hhazy;
    [|apply create_grid_refuses; by right].
  cbn [andb]. destruct (N.leb_spec (N.of_nat (length methods)) 1114047) as [Hfit|Hover].
  - by apply create_grid_run.
  - rewrite create_grid_unfold by done. unfold bind.
    fold methods. rewrite add_labels_overflow; [done|lia|lia].
Qed.
End RunOutcome.


(** The overflow case on a list of 1114048 method folders. *)
Example create_grid_label_overflow :
  create_grid Demo.fs (lit "ds") Demo.ids
              (Some (replicate (N.to_nat 1114048) (lit "m"))) (Some (lit "out"))
              empty_world
  = (Raise ValueError, empty_world).
Proof.
  rewrite create_grid_outcome.
  change (has_subdir Demo.fs (lit "ds") (lit "GT")
          && has_subdir Demo.fs (lit "ds") (lit "hazy")) with true.
  cbn [methods_of]. rewrite length_replicate, N2Nat.id. reflexivity.
Qed.

(** ** Saving and showing *)

Lemma made_dirs_put_dir d w : made_dirs (put_dir d w) = dirs_put d (made_dirs w).
Proof. done. Qed.

Lemma dirs_put_idemp d dirs : dirs_put d (dirs_put d dirs) = dirs_put d dirs.
Proof.
  unfold dirs_put. destruct (bool_decide (d ∈ dirs)) eqn:E.
  - by rewrite E.
  - rewrite bool_decide_eq_true_2; [done|]. apply elem_of_app. right. by left.
Qed.

Section Directories.
Variable fs : FileSystem.
Variables (dataset_dir : str) (folders labels filenames : list str).

Lemma made_dirs_after_saving c d idxs w :
  made_dirs (batches_world fs dataset_dir folders labels filenames (Some (c :: d))
                           idxs w)
  = match idxs with
    | [] => made_dirs w
    | _ :: _ => dirs_put (c :: d) (made_dirs w)
    end.
Proof.
  revert w. induction idxs as [|i idxs IH]; intros w; [done|].
  unfold batches_world in *. cbn [foldl]. rewrite IH.
  assert (made_dirs (batch_world fs dataset_dir folders labels filenames
                                 (Some (c :: d)) i w)
          = dirs_put (c :: d) (made_dirs w)) as ->.
  { unfold batch_world. cbn [made_dirs put_line put_saved].
    by rewrite made_dirs_put_dir, put_lines_made_dirs. }
  destruct idxs; [done|]. apply dirs_put_idemp.
Qed.
End Directories.

(** X2. Without a save directory, and also with the empty string as
    save directory, [create_grid] shows one figure per batch and neither
    saves a file nor creates a directory. *)
Theorem create_grid_shows_without_save_dir
    (fs : FileSystem) (dataset_dir : str) (filenames : list str)
    (custom_folders : option (list str)) (save_dir : option str) (w : World) :
  has_subdir fs dataset_dir (lit "GT") = true →
  has_subdir fs dataset_dir (lit "hazy") = true →
  let methods := methods_of fs dataset_dir custom_folders in
  (N.of_nat (length methods) ≤ 1114047)%N →
  save_dir = None ∨ save_dir = Some [] →
  ∃ w',
    create_grid fs dataset_dir filenames custom_folders save_dir w = (Ok tt, w')
    ∧ saved w' = saved w
    ∧ made_dirs w' = made_dirs w
    ∧ shown w'
      = shown w
        ++ (canvas fs dataset_dir ([lit "hazy"] ++ methods ++ [lit "GT"])
                   (labels_for methods) <$> batches filenames)
    ∧ length (shown w') = length (shown w) + (length filenames + 2) / 3.
Proof.
  intros Hgt Hhazy methods Hfit Hsave.
  assert (truthy save_dir = false) as Ht by (by destruct Hsave as [-> | ->]).
  set (folders := [lit "hazy"] ++ methods ++ [lit "GT"]).
  exists (batches_world fs dataset_dir folders (labels_for methods) filenames
                        save_dir (range 0 (length filenames) 3) w).
  split; [by apply create_grid_run|].
  destruct (shown_after_showing fs dataset_dir folders (labels_for methods) filenames
              save_dir (range 0 (length filenames) 3) w Ht) as (_ & Hsaved & Hdirs).
  split; [exact Hsaved|]. split; [exact Hdirs|].
  pose proof (shown_batches fs dataset_dir folders (labels_for methods) filenames
                save_dir w Ht) as Hshown.
  split; [exact Hshown|].
  rewrite Hshown, length_app, length_fmap, length_batches. done.
Qed.

Lemma create_grid_shows_without_save_dir_witness :
  ∃ w',
    create_grid Demo.fs (lit "ds") Demo.ids None (Some []) empty_world = (Ok tt, w')
    ∧ saved w' = [] ∧ made_dirs w' = [] ∧ fig_nrows <$> shown w' = [3; 1].
Proof.
  destruct (create_grid_shows_without_save_dir Demo.fs (lit "ds") Demo.ids None
              (Some []) empty_world)
    as (w' & Hrun & Hsaved & Hdirs & Hshown & _);
    [reflexivity|reflexivity| |by right|].
  - vm_compute. discriminate.
  - exists w'. split; [exact Hrun|]. split; [exact Hsaved|]. split; [exact Hdirs|].
    rewrite Hshown. reflexivity.
Defined.




(** ** Batches of a longer list *)






(** ** Every cell of every figure *)

(** X7. In every figure that [create_grid] renders, every subplot has
    its ticks and its frame switched off and holds exactly one of two
    things: one image and no placeholder, or no image and the
    placeholder text.  The only other text is the column label, which
    the subplots of the first row carry and no other subplot does. *)
Theorem create_grid_cell_invariant
    (fs : FileSystem) (dataset_dir : str) (filenames : list str)
    (custom_folders : option (list str)) (save_dir : option str)
    (i row col : nat) (fig : Figure) (ax : Axes) :
  rendered (create_grid fs dataset_dir filenames custom_folders save_dir
                        empty_world).2 !! i = Some fig →
  fig_grid fig !! row ≫= (.!! col) = Some ax →
  ax_axis_on ax = false ∧ ax_xticks ax = false ∧ ax_yticks ax = false
  ∧ ∃ above centre,
      ax_texts ax = above ++ centre
      ∧ (if row =? 0 then ∃ label, above = [header_text label] else above = [])
      ∧ ((∃ img, ax_images ax = [img] ∧ centre = [])
         ∨ (ax_images ax = [] ∧ centre = [placeholder_text])).
Proof.
  intros Hfig Hax. rewrite create_grid_outcome in Hfig.
  set (methods := methods_of fs dataset_dir custom_folders) in *.
  set (folders := [lit "hazy"] ++ methods ++ [lit "GT"]) in *.
  assert (length (labels_for methods) = length folders) as Hlabels.
  { unfold labels_for, folders. rewrite !length_app, length_imap. simpl. lia. }
  destruct (has_subdir fs dataset_dir (lit "GT") && has_subdir fs dataset_dir (lit "hazy"));
    [|done].
  destruct (N.of_nat _ <=? 1114047)%N; [|done].
  cbn [snd] in Hfig. rewrite rendered_after in Hfig.
  apply list_lookup_fmap_Some_1 in Hfig as (batch & -> & Hbatch).
  rewrite (fig_grid_canvas _ _ _ _ Hlabels) in Hax.
  destruct (canvas_shape fs dataset_dir folders (labels_for methods) Hlabels batch)
    as [Hrows Hcols].
  destruct (canvas_rows fs dataset_dir folders (labels_for methods) batch !! row)
    as [r|] eqn:Hr; [|done].
  cbn [mbind option_bind] in Hax.
  assert (row < length batch) as Hrow
    by (rewrite <- Hrows; by eapply lookup_lt_Some).
  assert (col < length folders) as Hcol.
  { rewrite <- (Forall_lookup_1 _ _ _ _ Hcols Hr). by eapply lookup_lt_Some. }
  destruct (lookup_lt_is_Some_2 batch row Hrow) as [filename Hfilename].
  destruct (lookup_lt_is_Some_2 folders col Hcol) as [folder Hfolder].
  destruct (canvas_cell fs dataset_dir folders (labels_for methods) Hlabels
              batch row col filename folder Hfilename Hfolder)
    as (label & _ & Hcell).
  rewrite Hr in Hcell. cbn [mbind option_bind] in Hcell.
  rewrite Hax in Hcell. injection Hcell as ->.
  unfold cell, draw_cell. split_and!; try done.
  exists (if row =? 0 then [header_text label] else []).
  destruct (cell_path fs dataset_dir filename folder) as [[|c p]|];
    [| destruct (load_image fs (c :: p)) as [img|] |].
  - exists [placeholder_text]. destruct (row =? 0); split_and!; eauto.
  - exists []. destruct (row =? 0); cbn; split_and!; eauto.
  - exists [placeholder_text]. destruct (row =? 0); split_and!; eauto.
  - exists [placeholder_text]. destruct (row =? 0); split_and!; eauto.
Qed.

Lemma create_grid_cell_invariant_witness :
  ∃ fig ax,
    rendered (create_grid Demo.fs (lit "ds") Demo.ids None (Some (lit "out"))
                          empty_world).2 !! 0 = Some fig
    ∧ fig_grid fig !! 0 ≫= (.!! 0) = Some ax
    ∧ ax_axis_on ax = false
    ∧ ax_texts ax = [header_text (lit "Hazy Input")]
    ∧ length (ax_images ax) = 1.
Proof.
  eexists. eexists. split; [reflexivity|]. split; [reflexivity|].
  split; [|split; reflexivity].
  eapply (create_grid_cell_invariant Demo.fs (lit "ds") Demo.ids None
            (Some (lit "out")) 0 0 0); reflexivity.
Defined.

(** ** The shape of the paths that are probed *)

Lemma path_join_absolute (a b : str) : sep `prefix_of` b → path_join a b = b.
Proof.
  intros H. unfold path_join. by rewrite (proj2 (startswith_prefix _ _) H).
Qed.

Lemma path_join_relative (a b : str) :
  ¬ sep `prefix_of` b → a `prefix_of` path_join a b ∧ b `suffix_of` path_join a b.
Proof.
  intros H. unfold path_join.
  destruct (startswith b sep) eqn:E; [by apply startswith_prefix in E|].
  destruct (str_eqb a [] || endswith a sep).
  - split; [by apply prefix_app_r|by apply suffix_app_r].
  - split; [by apply prefix_app_r|].
    rewrite app_assoc. by apply suffix_app_r.
Qed.

Lemma candidate_relative (filename suffix ext : str) :
  suffix = lit "_GT" ∨ suffix = lit "_hazy" →
  ¬ sep `prefix_of` filename → ¬ sep `prefix_of` (filename ++ suffix ++ ext).
Proof.
  intros Hs Hrel [k Hk]. destruct filename as [|c filename].
  - by destruct Hs as [-> | ->].
  - apply Hrel. exists filename. by simplify_eq/=.
Qed.

Lemma find_image_file_found fs folder_path filename folder_name w p :
  (find_image_file fs folder_path filename folder_name w).1 = Ok (Some p) →
  path_exists fs p = true
  ∧ ∃ ext, ext ∈ extensions
           ∧ p = path_join folder_path (filename ++ name_suffix folder_name ++ ext).
Proof.
  rewrite find_image_file_run. cbn [fst]. intros H. apply (inj Ok) in H.
  apply fmap_Some in H as ([i q] & Hfind & ->).
  apply list_find_Some in Hfind as (Hq & Hex & _). split; [done|].
  by apply list_elem_of_lookup_2, list_elem_of_fmap in Hq as (ext & -> & Hext); eauto.
Qed.

(** X8. An identifier that starts with [/] makes [os.path.join] drop the
    folder: the lookup probes [<identifier><suffix><ext>] as an absolute
    path, so its outcome is the same for every folder path, and a path
    it returns is the identifier followed by suffix and extension. *)
Theorem find_image_file_absolute_identifier
    (fs : FileSystem) (folder_path folder_path' filename folder_name : str)
    (w : World) :
  lit "/" `prefix_of` filename →
  find_image_file fs folder_path filename folder_name w
  = find_image_file fs folder_path' filename folder_name w
  ∧ ∀ p, (find_image_file fs folder_path filename folder_name w).1 = Ok (Some p) →
      ∃ ext, ext ∈ [lit ".png"; lit ".jpg"; lit ".jpeg"]
             ∧ p = filename
                   ++ (if bool_decide (folder_name = lit "GT") then lit "_GT"
                       else lit "_hazy")
                   ++ ext.
Proof.
  intros Habs.
  assert (∀ a ext, path_join a (filename ++ name_suffix folder_name ++ ext)
                   = filename ++ name_suffix folder_name ++ ext) as Hjoin.
  { intros a ext. apply path_join_absolute. by apply prefix_app_r. }
  split.
  - rewrite !find_image_file_run. unfold candidates, extensions.
    cbn [fmap list_fmap]. by rewrite !Hjoin.
  - intros p (_ & ext & Hext & ->)%find_image_file_found.
    exists ext. split; [done|]. apply Hjoin.
Qed.

Lemma find_image_file_absolute_identifier_witness :
  (find_image_file DemoScript.fs_absolute (lit "ds/hazy") (lit "/tmp/x") (lit "hazy")
                   empty_world).1
  = Ok (Some (lit "/tmp/x_hazy.jpg"))
  ∧ find_image_file DemoScript.fs_absolute (lit "ds/hazy") (lit "/tmp/x") (lit "hazy")
                    empty_world
    = find_image_file DemoScript.fs_absolute (lit "elsewhere") (lit "/tmp/x")
                      (lit "hazy") empty_world.
Proof.
  split; [reflexivity|].
  apply (find_image_file_absolute_identifier DemoScript.fs_absolute (lit "ds/hazy")
           (lit "elsewhere") (lit "/tmp/x") (lit "hazy") empty_world).
  by exists (lit "tmp/x").
Defined.

(** X9. For an identifier that does not start with [/], a path returned
    by the lookup exists, begins with the folder path and ends with
    [<identifier><suffix><ext>] for one of the three extensions. *)
Theorem find_image_file_path_in_folder
    (fs : FileSystem) (folder_path filename folder_name : str) (w : World)
    (p : str) :
  ¬ lit "/" `prefix_of` filename →
  (find_image_file fs folder_path filename folder_name w).1 = Ok (Some p) →
  path_exists fs p = true
  ∧ folder_path `prefix_of` p
  ∧ ∃ ext, ext ∈ [lit ".png"; lit ".jpg"; lit ".jpeg"]
           ∧ (filename
              ++ (if bool_decide (folder_name = lit "GT") then lit "_GT"
                  else lit "_hazy")
              ++ ext) `suffix_of` p.
Proof.
  intros Hrel (Hex & ext & Hext & ->)%find_image_file_found.
  assert (¬ sep `prefix_of` (filename ++ name_suffix folder_name ++ ext)) as Hb.
  { apply candidate_relative; [|done]. unfold name_suffix.
    destruct (str_eqb folder_name (lit "GT")); auto. }
  destruct (path_join_relative folder_path _ Hb) as [Hpre Hsuf].
  split; [done|]. split; [done|]. by exists ext.
Qed.

Lemma find_image_file_path_in_folder_witness :
  (find_image_file Demo.fs (lit "ds/GT") (lit "01") (lit "GT") empty_world).1
  = Ok (Some (lit "ds/GT/01_GT.png"))
  ∧ lit "ds/GT" `prefix_of` lit "ds/GT/01_GT.png".
Proof.
  split; [reflexivity|].
  eapply (find_image_file_path_in_folder Demo.fs (lit "ds/GT") (lit "01") (lit "GT")
            empty_world (lit "ds/GT/01_GT.png")); [|reflexivity].
  intros [k Hk]. discriminate Hk.
Defined.

(** ** What a run prints *)




Section Log.
Variable fs : FileSystem.
Variables (dataset_dir : str) (folders labels filenames : list str).


Lemma stdout_after_saving c d idxs w :
  stdout (batches_world fs dataset_dir folders labels filenames (Some (c :: d)) idxs w)
  = stdout w
    ++ (i ← idxs;
        batch_lines fs dataset_dir folders (slice filenames i (i + 3))
        ++ [lit "Saved: " ++ batch_path (c :: d) (i / 3 + 1)]).
Proof.
  revert w. induction idxs as [|i idxs IH]; intros w.
  - by rewrite app_nil_r.
  - unfold batches_world in *. cbn [foldl]. rewrite IH.
    unfold batch_world. cbn [stdout put_line put_saved put_dir].
    rewrite put_lines_stdout. cbn [mbind list_bind]. by rewrite <- !app_assoc.
Qed.

End Log.



(** ** The entry point *)

Lemma batches_main_filenames :
  batches main_filenames
  = [[lit "01"; lit "02"; lit "04"]; [lit "06"; lit "07"; lit "10"];
     [lit "11"; lit "12"; lit "13"]; [lit "20"; lit "22"; lit "26"];
     [lit "28"; lit "30"; lit "32"]; [lit "34"; lit "35"; lit "36"];
     [lit "37"; lit "38"; lit "39"]; [lit "40"; lit "41"; lit "42"];
     [lit "45"; lit "47"; lit "49"]].
Proof. reflexivity. Qed.

Lemma main_run fs repr_list w :
  main fs repr_list w
  = if path_exists fs main_dataset_dir
    then create_grid fs main_dataset_dir main_filenames None main_save_dir
                     (put_lines (main_report fs repr_list) w)
    else (Ok tt, put_line (lit "Dataset directory not found: Dense_Haze_NTIRE19") w).
Proof.
  unfold main, main_report. destruct (path_exists fs main_dataset_dir); [|done].
  by destruct (find_gt_hazy_folders fs main_dataset_dir) as [gt hazy].
Qed.

Lemma fmap_fst_imap {A B C} (f : nat → B) (g : A → C) (l : list A) :
  fst <$> imap (λ k x, (f k, g x)) l = imap (λ k _, f k) l.
Proof. rewrite fmap_imap. by apply imap_ext. Qed.

Lemma fmap_snd_imap {A B C D} (h : C → D) (f : nat → B) (g : A → C) (l : list A) :
  (h ∘ snd) <$> imap (λ k x, (f k, g x)) l = (h ∘ g) <$> l.
Proof. rewrite fmap_imap, <- imap_const. by apply imap_ext. Qed.

(** X10. Run as a script on a dataset directory that has [GT] and
    [hazy], the program reports what it found in four lines and then
    saves its 27 hard-coded identifiers as nine grids of three rows,
    [output_grids/grid_batch_1.png] to [grid_batch_9.png], each with one
    column per method folder found besides the two base columns; it
    shows nothing on screen. *)
Theorem main_saves_nine_grids
    (fs : FileSystem) (repr_list : list str → str) (w : World) :
  path_exists fs (lit "Dense_Haze_NTIRE19") = true →
  has_subdir fs (lit "Dense_Haze_NTIRE19") (lit "GT") = true →
  has_subdir fs (lit "Dense_Haze_NTIRE19") (lit "hazy") = true →
  let methods := find_custom_folders fs (lit "Dense_Haze_NTIRE19") in
  (N.of_nat (length methods) ≤ 1114047)%N →
  ∃ w' new,
    main fs repr_list w = (Ok tt, w')
    ∧ saved w' = saved w ++ new
    ∧ fst <$> new
      = (λ n, lit "output_grids/grid_batch_" ++ str_of_nat n ++ lit ".png")
          <$> [1; 2; 3; 4; 5; 6; 7; 8; 9]
    ∧ (fig_nrows ∘ snd) <$> new = replicate 9 3
    ∧ (fig_ncols ∘ snd) <$> new = replicate 9 (2 + length methods)
    ∧ shown w' = shown w
    ∧ made_dirs w' = dirs_put (lit "output_grids") (made_dirs w)
    ∧ (stdout w
       ++ [lit "Dataset directory: Dense_Haze_NTIRE19"; lit "GT folder: GT";
           lit "Hazy folder: hazy";
           lit "Found custom folders: " ++ repr_list methods])
      `prefix_of` stdout w'.
Proof.
  intros Hexists Hgt Hhazy methods Hfit.
  change (lit "Dense_Haze_NTIRE19") with main_dataset_dir in *.
  set (folders := [lit "hazy"] ++ methods ++ [lit "GT"]).
  set (w0 := put_lines (main_report fs repr_list) w).
  exists (batches_world fs main_dataset_dir folders (labels_for methods) main_filenames
                        main_save_dir (range 0 (length main_filenames) 3) w0).
  eexists. split.
  { rewrite main_run, Hexists. by apply create_grid_run. }
  unfold main_save_dir.
  change (lit "output_grids") with (111%N :: lit "utput_grids").
  split; [|split_and!].
  - rewrite saved_batches. unfold w0. rewrite put_lines_saved. reflexivity.
  - rewrite fmap_fst_imap, batches_main_filenames. reflexivity.
  - rewrite (fmap_snd_imap fig_nrows), batches_main_filenames. reflexivity.
  - rewrite (fmap_snd_imap fig_ncols), batches_main_filenames.
    cbn [fmap list_fmap compose canvas fig_ncols replicate].
    unfold folders. rewrite !length_app. cbn [length].
    by replace (1 + (length methods + 1)) with (2 + length methods) by lia.
  - destruct (saved_after_saving fs main_dataset_dir folders (labels_for methods)
                main_filenames 111%N (lit "utput_grids")
                (range 0 (length main_filenames) 3) w0) as [_ ->].
    unfold w0. apply put_lines_shown.
  - rewrite made_dirs_after_saving. unfold w0. by rewrite put_lines_made_dirs.
  - rewrite stdout_after_saving. unfold w0. rewrite put_lines_stdout.
    apply prefix_app_r. unfold main_report.
    rewrite find_gt_hazy_folders_members, Hgt, Hhazy. done.
Qed.

Lemma main_saves_nine_grids_witness :
  ∃ w',
    main DemoScript.fs DemoScript.repr_list empty_world = (Ok tt, w')
    ∧ length (saved w') = 9
    ∧ (fig_ncols ∘ snd) <$> saved w' = replicate 9 3
    ∧ take 4 (stdout w')
      = [lit "Dataset directory: Dense_Haze_NTIRE19"; lit "GT folder: GT";
         lit "Hazy folder: hazy"; lit "Found custom folders: ['results_dcp']"].
Proof.
  destruct (main_saves_nine_grids DemoScript.fs DemoScript.repr_list empty_world)
    as (w' & new & Hrun & Hsaved & Hnames & _ & Hcols & _);
    [reflexivity|reflexivity|reflexivity| |].
  - vm_compute. discriminate.
  - exists w'. split; [exact Hrun|]. rewrite Hsaved. cbn [saved empty_world app].
    split; [by rewrite <- (length_fmap fst), Hnames|].
    split; [exact Hcols|].
    injection Hrun as <-. reflexivity.
Defined.



(** ** File names of the batches *)

Lemma lit_inj (s t : string) : lit s = lit t → s = t.
Proof.
  unfold lit. intros H.
  rewrite <- (string_of_list_ascii_of_string s), <- (string_of_list_ascii_of_string t).
  f_equal. revert H. generalize (list_ascii_of_string s) (list_ascii_of_string t).
  induction l as [|a l IH]; intros [|b l'] H; simplify_eq/=; [done|].
  f_equal; [|by apply IH].
  by rewrite <- (ascii_N_embedding a), <- (ascii_N_embedding b), H.
Qed.

Lemma str_of_nat_inj (n m : nat) : str_of_nat n = str_of_nat m → n = m.
Proof.
  unfold str_of_nat. intros H%lit_inj.
  apply Stdlib.Numbers.DecimalNat.Unsigned.to_uint_inj.
  assert (∀ k, Nat.to_uint k ≠ Decimal.Nil) as Hnil.
  { intros k. rewrite <- (Stdlib.Numbers.DecimalNat.Unsigned.of_to k), Stdlib.Numbers.DecimalNat.Unsigned.to_of.
    apply Stdlib.Numbers.DecimalFacts.unorm_nonnil. }
  apply (inj Some).
  by rewrite <- (NilZero.usu _ (Hnil n)), <- (NilZero.usu _ (Hnil m)), H.
Qed.

Lemma batch_path_inj (save_dir : str) (n m : nat) :
  batch_path save_dir n = batch_path save_dir m → n = m.
Proof.
  unfold batch_path, path_join. 
  change (startswith (lit "grid_batch_" ++ ?s) sep) with false. cbv iota.
  intros H. apply str_of_nat_inj.
  destruct (str_eqb save_dir [] || endswith save_dir sep).
  - apply app_inv_head in H. apply (app_inv_head (lit "grid_batch_")) in H.
    by apply app_inv_tail in H.
  - rewrite !(app_assoc save_dir) in H. apply app_inv_head in H.
    apply (app_inv_head (lit "grid_batch_")) in H. by apply app_inv_tail in H.
Qed.

(** X12. The files of one saving run have pairwise different names, so
    no batch overwrites the grid of another: the decimal batch number
    tells the names apart. *)
Theorem create_grid_saves_distinct_files
    (fs : FileSystem) (dataset_dir : str) (filenames : list str)
    (custom_folders : option (list str)) (save_dir : str) (w : World) :
  has_subdir fs dataset_dir (lit "GT") = true →
  has_subdir fs dataset_dir (lit "hazy") = true →
  (N.of_nat (length (methods_of fs dataset_dir custom_folders)) ≤ 1114047)%N →
  save_dir ≠ [] →
  ∃ new,
    saved (create_grid fs dataset_dir filenames custom_folders (Some save_dir) w).2
    = saved w ++ new
    ∧ length new = (length filenames + 2) / 3
    ∧ NoDup (fst <$> new).
Proof.
  intros Hgt Hhazy Hfit Hsave. destruct save_dir as [|c d]; [done|].
  rewrite create_grid_run by done. cbn [snd].
  eexists. split; [apply saved_batches|]. split.
  - by rewrite length_imap, length_batches.
  - rewrite fmap_fst_imap.
    rewrite (imap_seq_0 _ (λ k, batch_path (c :: d) (k + 1))).
    apply NoDup_fmap_2; [|apply NoDup_seq].
    intros k k' Hk%batch_path_inj. lia.
Qed.

Lemma create_grid_saves_distinct_files_witness :
  ∃ new,
    saved (create_grid Demo.fs (lit "ds") Demo.ids None (Some (lit "out"))
                       empty_world).2 = new
    ∧ length new = 2 ∧ NoDup (fst <$> new).
Proof.
  destruct (create_grid_saves_distinct_files Demo.fs (lit "ds") Demo.ids None
              (lit "out") empty_world) as (new & Hsaved & Hlen & Hnodup);
    [reflexivity|reflexivity| |discriminate|].
  - vm_compute. discriminate.
  - exists new. split; [exact Hsaved|]. split; [exact Hlen|exact Hnodup].
Defined.
